(** * Fuel calculator: the form handlers of [App.tsx] and of its
      English-only predecessor, over IEEE 754 binary64 numbers. *)

From Stdlib Require Import ZArith Bool List String Ascii Lia.
From Stdlib Require Import Floats.SpecFloat.
Import ListNotations.

Local Open Scope string_scope.
Local Open Scope Z_scope.

(** ** JavaScript Numbers

    A JavaScript Number is an IEEE 754 binary64 value: 53 bits of
    precision, infinities at exponent 1024, one NaN. *)
Module Number.

Definition prec : Z := 53.
Definition emax : Z := 1024.

Definition number : Type := spec_float.

Definition NaN : number := S754_nan.
Definition Infinity : number := S754_infinity false.

(** The Number nearest to the integer [n] (ties to even). *)
Definition of_Z (n : Z) : number := binary_normalize prec emax n 0 false.

Definition sub : number -> number -> number := SFsub prec emax.
Definition mul : number -> number -> number := SFmul prec emax.
Definition div : number -> number -> number := SFdiv prec emax.

(** [isNaN(x)] *)
Definition isNaN (x : number) : bool :=
  match x with
  | S754_nan => true
  | _ => false
  end.

(** The mantissa of a finite Number, signed and scaled to the exponent
    [ez] (which is at most the Number's own exponent). *)
Definition aligned (s : bool) (m : positive) (e ez : Z) : Z :=
  cond_Zopp s (Zpos (fst (shl_align m e ez))).

(** [Number::lessThan(x, y)] of ECMAScript: undefined ([None]) when an
    operand is NaN, otherwise whether the mathematical value of [x] is
    below that of [y]; the two zeros are equal. *)
Definition lessThan (x y : number) : option bool :=
  match x, y with
  | S754_nan, _ | _, S754_nan => None
  | S754_infinity sx, S754_infinity sy => Some (sx && negb sy)
  | S754_infinity sx, _ => Some sx
  | _, S754_infinity sy => Some (negb sy)
  | S754_zero _, S754_zero _ => Some false
  | S754_zero _, S754_finite sy _ _ => Some (negb sy)
  | S754_finite sx _ _, S754_zero _ => Some sx
  | S754_finite sx mx ex, S754_finite sy my ey =>
      let ez := Z.min ex ey in
      Some (aligned sx mx ex ez <? aligned sy my ey ez)
  end.

(** [x <= y]: IsLessThan(y, x) is neither true nor undefined. *)
Definition le (x y : number) : bool :=
  match lessThan y x with
  | Some false => true
  | _ => false
  end.

(** [x > y]: IsLessThan(y, x) is true. *)
Definition gt (x y : number) : bool :=
  match lessThan y x with
  | Some true => true
  | _ => false
  end.

(** [Math.round(x)]: NaN, the infinities and the zeros are returned as
    they are; otherwise the integer nearest to [x], the one closer to
    +Infinity in a tie, and a zero of the sign of [x] when that integer
    is 0.  For [x = ±m·2^e] with [e < 0] the integer is
    [floor((±2m + 2^(-e)) / 2^(1-e))]. *)
Definition round (x : number) : number :=
  match x with
  | S754_finite s m e =>
      if 0 <=? e then x
      else
        let n := (2 * cond_Zopp s (Zpos m) + 2 ^ (- e)) / 2 ^ (1 - e) in
        if n =? 0 then S754_zero s else binary_normalize prec emax n 0 s
  | _ => x
  end.

(** Rounding to the nearest integer with ties away from zero, the
    rounding the specification names: [sign(x)·floor(|x| + 1/2)]. *)
Definition round_half_away (x : number) : number :=
  match x with
  | S754_finite s m e =>
      if 0 <=? e then x
      else
        let n := (2 * Zpos m + 2 ^ (- e)) / 2 ^ (1 - e) in
        if n =? 0 then S754_zero s
        else binary_normalize prec emax (cond_Zopp s n) 0 s
  | _ => x
  end.

(** The sign bit is clear, or the value is NaN. *)
Definition not_negative (x : number) : bool :=
  match x with
  | S754_nan => true
  | S754_zero s | S754_infinity s | S754_finite s _ _ => negb s
  end.

(** A Number that is not NaN and has its sign bit clear: +0, a positive
    finite value or +Infinity. *)
Definition nonneg_value (x : number) : bool :=
  match x with
  | S754_nan => false
  | S754_zero s | S754_infinity s | S754_finite s _ _ => negb s
  end.

(** A finite Number above zero. *)
Definition positive_finite (x : number) : bool :=
  match x with
  | S754_finite false _ _ => true
  | _ => false
  end.

End Number.

(** ** Strings as UTF-8 byte sequences, and [parseFloat] *)
Module Str.

Definition byte (c : ascii) : N := N_of_ascii c.

(** White space and line terminators of one, two and three bytes:
    TAB, LF, VT, FF, CR, SP; U+00A0; U+1680, U+2000..U+200A, U+2028,
    U+2029, U+202F, U+205F, U+3000, U+FEFF. *)
Definition is_ws1 (a : ascii) : bool :=
  let x := byte a in
  ((9 <=? x) && (x <=? 13) || (x =? 32))%N.

Definition is_ws2 (a b : ascii) : bool :=
  ((byte a =? 194) && (byte b =? 160))%N.

Definition is_ws3 (a b c : ascii) : bool :=
  let x := byte a in
  let y := byte b in
  let z := byte c in
  ((x =? 225) && (y =? 154) && (z =? 128)
   || (x =? 226) && (y =? 128)
      && ((128 <=? z) && (z <=? 138) || (z =? 168) || (z =? 169) || (z =? 175))
   || (x =? 226) && (y =? 129) && (z =? 159)
   || (x =? 227) && (y =? 128) && (z =? 128)
   || (x =? 239) && (y =? 187) && (z =? 191))%N.

(** [TrimString(s, start)] *)
Fixpoint trimStart (s : string) : string :=
  match s with
  | String a r1 =>
      if is_ws1 a then trimStart r1
      else
        match r1 with
        | String b r2 =>
            if is_ws2 a b then trimStart r2
            else
              match r2 with
              | String c r3 => if is_ws3 a b c then trimStart r3 else s
              | EmptyString => s
              end
        | EmptyString => s
        end
  | EmptyString => s
  end.

Definition digit (c : ascii) : option Z :=
  let x := byte c in
  if ((48 <=? x) && (x <=? 57))%N then Some (Z.of_N x - 48) else None.

(** The longest run of decimal digits at the head of [s], and the rest. *)
Fixpoint span_digits (s : string) : list Z * string :=
  match s with
  | String c r =>
      match digit c with
      | Some d => let '(ds, r') := span_digits r in (d :: ds, r')
      | None => ([], s)
      end
  | EmptyString => ([], s)
  end.

(** The mathematical value of a run of digits. *)
Definition digits_value (ds : list Z) : Z :=
  fold_left (fun acc d => 10 * acc + d) ds 0.

Definition is_nil {A} (l : list A) : bool :=
  match l with
  | [] => true
  | _ => false
  end.

Inductive literal :=
| LitInfinity
| LitDecimal (m : Z) (e : Z).   (* m × 10^e *)

(** An optional sign at the head of [s]: whether it is [-], and the rest. *)
Definition sign (s : string) : bool * string :=
  match s with
  | String "+" r => (false, r)
  | String "-" r => (true, r)
  | _ => (false, s)
  end.

(** [ExponentPart] at the head of [s], 0 when there is none (an [e] that
    no digit follows is not part of the literal). *)
Definition exponent (s : string) : Z :=
  match s with
  | String c r =>
      if (Ascii.eqb c "e" || Ascii.eqb c "E")%char then
        let '(neg, r') := sign r in
        let '(ds, _) := span_digits r' in
        if is_nil ds then 0 else cond_Zopp neg (digits_value ds)
      else 0
  | EmptyString => 0
  end.

(** The longest prefix of [s] that is a [StrUnsignedDecimalLiteral]:
    [Infinity], [digits . digits? exp?], [. digits exp?], [digits exp?]. *)
Definition unsigned_literal (s : string) : option literal :=
  if prefix "Infinity" s then Some LitInfinity
  else
    let '(ip, r1) := span_digits s in
    let '(fp, r2) :=
      match r1 with
      | String "." r => span_digits r
      | _ => ([], r1)
      end in
    if is_nil ip && is_nil fp then None
    else
      Some (LitDecimal (digits_value (ip ++ fp))
                       (exponent r2 - Z.of_nat (List.length fp))).

(** The Number nearest to [±m × 10^e] (ties to even); a zero keeps the
    sign of the literal.  A negative power of ten is divided out with one
    rounding of the exact quotient.  (Past twenty significant digits
    ECMAScript lets an engine round the decimal first; the engines in use
    convert the exact value, as here.) *)
Definition of_decimal (neg : bool) (m e : Z) : Number.number :=
  match m with
  | Zpos p =>
      if 0 <=? e then
        binary_normalize Number.prec Number.emax (cond_Zopp neg (m * 10 ^ e)) 0 false
      else
        SFdiv Number.prec Number.emax
          (S754_finite neg p 0) (S754_finite false (Z.to_pos (10 ^ (- e))) 0)
  | _ => S754_zero neg
  end.

(** [parseFloat(s)]: leading white space is skipped, the longest prefix
    that is a [StrDecimalLiteral] is converted, anything after it is
    ignored; NaN when there is no such prefix. *)
Definition parseFloat (s : string) : Number.number :=
  let '(neg, r) := sign (trimStart s) in
  match unsigned_literal r with
  | None => Number.NaN
  | Some LitInfinity => S754_infinity neg
  | Some (LitDecimal m e) => of_decimal neg m e
  end.

(** A string is falsy exactly when it is empty. *)
Definition falsy (s : string) : bool :=
  match s with
  | EmptyString => true
  | _ => false
  end.

(** Whether every character of [s] satisfies [p]. *)
Fixpoint all_chars (p : ascii -> bool) (s : string) : bool :=
  match s with
  | String c r => p c && all_chars p r
  | EmptyString => true
  end.

Definition is_digit (c : ascii) : bool :=
  ((48 <=? byte c) && (byte c <=? 57))%N.

(** The integer that a string of decimal digits writes, read from the
    left onto [acc]. *)
Fixpoint decimal_from (acc : Z) (s : string) : Z :=
  match s with
  | String c r => decimal_from (10 * acc + (Z.of_N (byte c) - 48)) r
  | EmptyString => acc
  end.

End Str.

(** ** The vehicle catalog

    [interface VehicleType], declared alike by both versions. *)
Record VehicleType := {
  id : string;
  name : string;
  kmPerLiter : Number.number
}.

(** [vehicleTypes.find(v => v.id === selectedVehicle)]: the first vehicle
    of the catalog with that identifier, [None] for [undefined]. *)
Definition findVehicle (vehicleTypes : list VehicleType) (selectedVehicle : string)
  : option VehicleType :=
  find (fun v => String.eqb (id v) selectedVehicle) vehicleTypes.

(** ** The bilingual application, [src/App.tsx] *)
Module App.
Import Number Str.

Inductive Language := EN | ID.   (* 'en' | 'id' *)

(** The part of [translations.json] that the handlers read: the four
    error messages of a language. *)
Record ErrorMessages := {
  fillAllFields : string;
  validNumbers : string;
  kmBGreater : string;
  validVehicle : string
}.

Record Translation := { errors : ErrorMessages }.

(** The component's state, one field per [useState]. *)
Record State := {
  kmA : string;
  kmB : string;
  selectedVehicle : string;
  result : option number;      (* number | null *)
  error : string;
  language : Language
}.

Definition initial : State :=
  {| kmA := ""; kmB := ""; selectedVehicle := ""; result := None;
     error := ""; language := ID |}.

Definition setKmA (v : string) (s : State) : State :=
  {| kmA := v; kmB := kmB s; selectedVehicle := selectedVehicle s;
     result := result s; error := error s; language := language s |}.

Definition setKmB (v : string) (s : State) : State :=
  {| kmA := kmA s; kmB := v; selectedVehicle := selectedVehicle s;
     result := result s; error := error s; language := language s |}.

Definition setSelectedVehicle (v : string) (s : State) : State :=
  {| kmA := kmA s; kmB := kmB s; selectedVehicle := v;
     result := result s; error := error s; language := language s |}.

Definition setResult (v : option number) (s : State) : State :=
  {| kmA := kmA s; kmB := kmB s; selectedVehicle := selectedVehicle s;
     result := v; error := error s; language := language s |}.

Definition setError (v : string) (s : State) : State :=
  {| kmA := kmA s; kmB := kmB s; selectedVehicle := selectedVehicle s;
     result := result s; error := v; language := language s |}.

(** [setLanguage(prev => ...)] *)
Definition setLanguage (f : Language -> Language) (s : State) : State :=
  {| kmA := kmA s; kmB := kmB s; selectedVehicle := selectedVehicle s;
     result := result s; error := error s; language := f (language s) |}.

Section Component.

(** [vehicleConfig.vehicleTypes] and [translations], the two JSON
    imports of the component. *)
Variable vehicleTypes : list VehicleType.
Variable translations : Language -> Translation.

Definition toggleLanguage (s : State) : State :=
  setError ""
    (setLanguage (fun prev => match prev with EN => ID | ID => EN end) s).

(** A handler reads the values of the render it was created in ([s])
    and queues updates; the next state is [s] with the updates applied
    in order. *)
Definition calculateFuelConsumption (s : State) : State :=
  let t := translations (language s) in
  let s' := setResult None (setError "" s) in
  if falsy (kmA s) || falsy (kmB s) || falsy (selectedVehicle s) then
    setError (fillAllFields (errors t)) s'
  else
    let kmANum := parseFloat (kmA s) in
    let kmBNum := parseFloat (kmB s) in
    if isNaN kmANum || isNaN kmBNum then
      setError (validNumbers (errors t)) s'
    else if le kmBNum kmANum then
      setError (kmBGreater (errors t)) s'
    else
      match findVehicle vehicleTypes (selectedVehicle s) with
      | None => setError (validVehicle (errors t)) s'
      | Some vehicle =>
          let totalKm := sub kmBNum kmANum in
          let fuelNeeded := div totalKm (kmPerLiter vehicle) in
          setResult (Some (div (round (mul fuelNeeded (of_Z 100))) (of_Z 100))) s'
      end.

Definition resetForm (s : State) : State :=
  setError "" (setResult None (setSelectedVehicle "" (setKmB "" (setKmA "" s)))).

(** The "Distance Display" block of the render: what it shows, if it
    is rendered at all. *)
Definition distanceDisplay (s : State) : option number :=
  if negb (falsy (kmA s)) && negb (falsy (kmB s))
     && negb (isNaN (parseFloat (kmA s))) && negb (isNaN (parseFloat (kmB s)))
     && gt (parseFloat (kmB s)) (parseFloat (kmA s))
  then Some (sub (parseFloat (kmB s)) (parseFloat (kmA s)))
  else None.

(** The "Error Message" block is rendered when [error] is truthy, the
    "Result Display" block when [result !== null]. *)
Definition errorShown (s : State) : bool := negb (falsy (error s)).
Definition resultShown (s : State) : bool :=
  match result s with
  | Some _ => true
  | None => false
  end.

(** The user actions of the form. *)
Inductive Action :=
| EditKmA (v : string)
| EditKmB (v : string)
| SelectVehicle (v : string)
| Calculate
| Reset
| ToggleLanguage.

Definition step (a : Action) (s : State) : State :=
  match a with
  | EditKmA v => setKmA v s
  | EditKmB v => setKmB v s
  | SelectVehicle v => setSelectedVehicle v s
  | Calculate => calculateFuelConsumption s
  | Reset => resetForm s
  | ToggleLanguage => toggleLanguage s
  end.

Inductive reachable : State -> Prop :=
| reachable_initial : reachable initial
| reachable_step a s : reachable s -> reachable (step a s).

Definition run (acts : list Action) (s : State) : State :=
  fold_left (fun st a => step a st) acts s.

(** The values of the [<option>]s of the vehicle [<select>]: the
    placeholder's empty value, then the identifier of each catalog vehicle.
    [setSelectedVehicle(e.target.value)] receives one of them. *)
Definition vehicleOptions : list string := "" :: map id vehicleTypes.

End Component.
End App.

(** ** The English-only application, the earlier version of [App.tsx] *)
Module EnglishApp.
Import Number Str.

Record State := {
  kmA : string;
  kmB : string;
  selectedVehicle : string;
  result : option number;
  error : string
}.

Definition initial : State :=
  {| kmA := ""; kmB := ""; selectedVehicle := ""; result := None; error := "" |}.

Definition setKmA (v : string) (s : State) : State :=
  {| kmA := v; kmB := kmB s; selectedVehicle := selectedVehicle s;
     result := result s; error := error s |}.

Definition setKmB (v : string) (s : State) : State :=
  {| kmA := kmA s; kmB := v; selectedVehicle := selectedVehicle s;
     result := result s; error := error s |}.

Definition setSelectedVehicle (v : string) (s : State) : State :=
  {| kmA := kmA s; kmB := kmB s; selectedVehicle := v;
     result := result s; error := error s |}.

Definition setResult (v : option number) (s : State) : State :=
  {| kmA := kmA s; kmB := kmB s; selectedVehicle := selectedVehicle s;
     result := v; error := error s |}.

Definition setError (v : string) (s : State) : State :=
  {| kmA := kmA s; kmB := kmB s; selectedVehicle := selectedVehicle s;
     result := result s; error := v |}.

Section Component.

Variable vehicleTypes : list VehicleType.

Definition calculateFuelConsumption (s : State) : State :=
  let s' := setResult None (setError "" s) in
  if falsy (kmA s) || falsy (kmB s) || falsy (selectedVehicle s) then
    setError "Please fill in all fields" s'
  else
    let kmANum := parseFloat (kmA s) in
    let kmBNum := parseFloat (kmB s) in
    if isNaN kmANum || isNaN kmBNum then
      setError "Please enter valid numbers for kilometers" s'
    else if le kmBNum kmANum then
      setError "KM B must be greater than KM A" s'
    else
      match findVehicle vehicleTypes (selectedVehicle s) with
      | None => setError "Please select a valid vehicle type" s'
      | Some vehicle =>
          let totalKm := sub kmBNum kmANum in
          let fuelNeeded := div totalKm (kmPerLiter vehicle) in
          setResult (Some (div (round (mul fuelNeeded (of_Z 100))) (of_Z 100))) s'
      end.

Definition resetForm (s : State) : State :=
  setError "" (setResult None (setSelectedVehicle "" (setKmB "" (setKmA "" s)))).

(** The "Distance Display", "Error Message" and "Result Display" blocks
    of the render. *)
Definition distanceDisplay (s : State) : option number :=
  if negb (falsy (kmA s)) && negb (falsy (kmB s))
     && negb (isNaN (parseFloat (kmA s))) && negb (isNaN (parseFloat (kmB s)))
     && gt (parseFloat (kmB s)) (parseFloat (kmA s))
  then Some (sub (parseFloat (kmB s)) (parseFloat (kmA s)))
  else None.

Definition errorShown (s : State) : bool := negb (falsy (error s)).
Definition resultShown (s : State) : bool :=
  match result s with
  | Some _ => true
  | None => false
  end.

(** The user actions of the form. *)
Inductive Action :=
| EditKmA (v : string)
| EditKmB (v : string)
| SelectVehicle (v : string)
| Calculate
| Reset.

Definition step (a : Action) (s : State) : State :=
  match a with
  | EditKmA v => setKmA v s
  | EditKmB v => setKmB v s
  | SelectVehicle v => setSelectedVehicle v s
  | Calculate => calculateFuelConsumption s
  | Reset => resetForm s
  end.

Definition run (acts : list Action) (s : State) : State :=
  fold_left (fun st a => step a st) acts s.

End Component.
End EnglishApp.

(** ** The vocabulary of the specification *)
Module Spec.
Import Number Str.

(** The four error kinds, in the order in which they are checked. *)
Inductive ErrorKind :=
| MissingFieldError
| InvalidNumberError
| InvalidRangeError
| UnknownVehicleError.

Definition order : list ErrorKind :=
  [MissingFieldError; InvalidNumberError; InvalidRangeError; UnknownVehicleError].

(** The trigger of each kind, on the three input fields. *)
Definition fails (vehicleTypes : list VehicleType)
    (startKm endKm vehicleId : string) (k : ErrorKind) : bool :=
  match k with
  | MissingFieldError => falsy startKm || falsy endKm || falsy vehicleId
  | InvalidNumberError => isNaN (parseFloat startKm) || isNaN (parseFloat endKm)
  | InvalidRangeError => le (parseFloat endKm) (parseFloat startKm)
  | UnknownVehicleError =>
      negb (existsb (fun v => String.eqb (id v) vehicleId) vehicleTypes)
  end.

(** The first check that fails, if any. *)
Definition first_failure (vehicleTypes : list VehicleType)
    (startKm endKm vehicleId : string) : option ErrorKind :=
  find (fails vehicleTypes startKm endKm vehicleId) order.

(** The message of each kind in a language's catalog. *)
Definition message (t : App.Translation) (k : ErrorKind) : string :=
  match k with
  | MissingFieldError => App.fillAllFields (App.errors t)
  | InvalidNumberError => App.validNumbers (App.errors t)
  | InvalidRangeError => App.kmBGreater (App.errors t)
  | UnknownVehicleError => App.validVehicle (App.errors t)
  end.

(** The message of each kind in the English-only version. *)
Definition english_message (k : ErrorKind) : string :=
  match k with
  | MissingFieldError => "Please fill in all fields"
  | InvalidNumberError => "Please enter valid numbers for kilometers"
  | InvalidRangeError => "KM B must be greater than KM A"
  | UnknownVehicleError => "Please select a valid vehicle type"
  end.

(** [round((end - start) / kmPerLiter * 100) / 100], the rounding being
    to the nearest integer with ties away from zero. *)
Definition fuel (startKm endKm kmPerLiter : number) : number :=
  div (round_half_away (mul (div (sub endKm startKm) kmPerLiter) (of_Z 100)))
      (of_Z 100).

(** The state a failed check leaves: its message, and no result. *)
Definition failed (msg : string) (s : App.State) : App.State :=
  App.setError msg (App.setResult None (App.setError "" s)).

(** [result] and the error message are not both present. *)
Definition exclusive (s : App.State) : Prop :=
  App.result s = None \/ App.error s = "".

End Spec.

(** ** A catalog to evaluate on

    The two JSON files are not among the sources.  For evaluation on
    concrete states: one vehicle of 20 km per litre; English messages as
    the English-only version words them; the Indonesian messages, whose
    text the sources do not show, stand as their catalog keys. *)
Module Sample.

Definition car : VehicleType :=
  {| id := "car"; name := "Car"; kmPerLiter := Number.of_Z 20 |}.

Definition vehicleTypes : list VehicleType := [car].

(** A catalog of two vehicles, the car being the second. *)
Definition motorcycle : VehicleType :=
  {| id := "motorcycle"; name := "Motorcycle"; kmPerLiter := Number.of_Z 40 |}.

Definition garage : list VehicleType := [motorcycle; car].

Definition translations (l : App.Language) : App.Translation :=
  match l with
  | App.EN =>
      {| App.errors :=
           {| App.fillAllFields := "Please fill in all fields";
              App.validNumbers := "Please enter valid numbers for kilometers";
              App.kmBGreater := "KM B must be greater than KM A";
              App.validVehicle := "Please select a valid vehicle type" |} |}
  | App.ID =>
      {| App.errors :=
           {| App.fillAllFields := "errors.fillAllFields";
              App.validNumbers := "errors.validNumbers";
              App.kmBGreater := "errors.kmBGreater";
              App.validVehicle := "errors.validVehicle" |} |}
  end.

Definition form (a b v : string) (l : App.Language) : App.State :=
  {| App.kmA := a; App.kmB := b; App.selectedVehicle := v;
     App.result := None; App.error := ""; App.language := l |}.

Definition english_form (a b v : string) : EnglishApp.State :=
  {| EnglishApp.kmA := a; EnglishApp.kmB := b; EnglishApp.selectedVehicle := v;
     EnglishApp.result := None; EnglishApp.error := "" |}.

End Sample.

(** ** Vocabulary for runs of the two versions *)
Module Runs.

(** The other language. *)
Definition other (l : App.Language) : App.Language :=
  match l with
  | App.EN => App.ID
  | App.ID => App.EN
  end.

(** How many of the actions are language toggles. *)
Fixpoint toggles (acts : list App.Action) : nat :=
  match acts with
  | [] => 0%nat
  | App.ToggleLanguage :: rest => S (toggles rest)
  | _ :: rest => toggles rest
  end.

(** The state with the two distance texts exchanged. *)
Definition swapped (s : App.State) : App.State :=
  App.setKmB (App.kmA s) (App.setKmA (App.kmB s) s).

(** An action of the English-only form, as an action of the bilingual one. *)
Definition lift (a : EnglishApp.Action) : App.Action :=
  match a with
  | EnglishApp.EditKmA v => App.EditKmA v
  | EnglishApp.EditKmB v => App.EditKmB v
  | EnglishApp.SelectVehicle v => App.SelectVehicle v
  | EnglishApp.Calculate => App.Calculate
  | EnglishApp.Reset => App.Reset
  end.

(** The message of an outcome: of the check that failed, or none. *)
Definition english_outcome (o : option Spec.ErrorKind) : string :=
  match o with
  | Some k => Spec.english_message k
  | None => ""
  end.

Definition outcome (t : App.Translation) (o : option Spec.ErrorKind) : string :=
  match o with
  | Some k => Spec.message t k
  | None => ""
  end.

(** A state of the English-only form and one of the bilingual form that
    hold the same inputs and the same result, and whose errors are the
    messages of the same outcome. *)
Definition agree (translations : App.Language -> App.Translation)
    (s1 : EnglishApp.State) (s2 : App.State) : Prop :=
  EnglishApp.kmA s1 = App.kmA s2
  /\ EnglishApp.kmB s1 = App.kmB s2
  /\ EnglishApp.selectedVehicle s1 = App.selectedVehicle s2
  /\ EnglishApp.result s1 = App.result s2
  /\ exists o, EnglishApp.error s1 = english_outcome o
               /\ App.error s2 = outcome (translations (App.language s2)) o.

End Runs.

(** ** Signs of the arithmetic *)
Section NumberFacts.
Import Number.

Lemma binary_round_aux_not_negative m e l :
  not_negative (binary_round_aux prec emax false m e l) = true.
Proof.
  unfold binary_round_aux.
  destruct (shr_fexp prec emax m e l) as [mrs' e'].
  destruct (shr_fexp prec emax _ e' loc_Exact) as [mrs'' e''].
  destruct (shr_m mrs''); simpl; trivial.
  destruct (_ <=? _); reflexivity.
Qed.

Lemma binary_normalize_not_negative n e :
  0 < n -> not_negative (binary_normalize prec emax n e false) = true.
Proof.
  intros Hn. destruct n as [|p|p]; try lia.
  unfold binary_normalize, binary_round.
  destruct (shl_align p e _) as [mz ez].
  apply binary_round_aux_not_negative.
Qed.

Lemma lessThan_sub_not_negative a b :
  lessThan a b = Some true -> not_negative (sub b a) = true.
Proof.
  unfold sub.
  destruct a as [sa|sa| |sa ma ea], b as [sb|sb| |sb mb eb]; simpl;
    try discriminate; try (intros [= H]);
    try (destruct sa; simpl in *; congruence);
    try (destruct sb; simpl in *; congruence);
    try (destruct sa, sb; simpl in *; congruence).
  apply Z.ltb_lt in H. unfold aligned in H.
  rewrite (Z.min_comm eb ea).
  apply binary_normalize_not_negative. lia.
Qed.

Lemma div_not_negative x k :
  not_negative x = true -> lessThan (S754_zero false) k = Some true ->
  not_negative (div x k) = true.
Proof.
  unfold div.
  destruct x as [sx|sx| |sx mx ex], k as [sk|sk| |sk mk ek]; simpl;
    try discriminate; trivial; intros Hx [= Hk];
    try (destruct sx, sk; simpl in *; congruence).
  destruct sx, sk; simpl in *; try discriminate.
  destruct (SFdiv_core_binary prec emax (Z.pos mx) ex (Z.pos mk) ek) as [[mz ez] lz].
  apply binary_round_aux_not_negative.
Qed.

Lemma mul_not_negative x y :
  not_negative x = true -> not_negative y = true ->
  not_negative (mul x y) = true.
Proof.
  unfold mul.
  destruct x as [sx|sx| |sx mx ex], y as [sy|sy| |sy my ey]; simpl;
    trivial; intros Hx Hy;
    try (destruct sx, sy; simpl in *; congruence).
  destruct sx, sy; simpl in *; try discriminate.
  apply binary_round_aux_not_negative.
Qed.

(** On a value that is not negative, [Math.round] (ties toward
    +Infinity) is rounding with ties away from zero. *)
Lemma round_not_negative x :
  not_negative x = true -> round x = round_half_away x.
Proof.
  destruct x as [s|s| |s m e]; trivial.
  simpl. intros Hs. destruct s; try discriminate. reflexivity.
Qed.

(** On negative ties the two roundings differ: -2.5 goes to -2 and -3. *)
Lemma round_negative_tie :
  round (div (of_Z (-5)) (of_Z 2)) = of_Z (-2) /\
  round_half_away (div (of_Z (-5)) (of_Z 2)) = of_Z (-3).
Proof. split; vm_compute; reflexivity. Qed.

(** *** The order on Numbers

    On valid binary64 values, [lessThan] is the IEEE 754 comparison. *)
Lemma iter_xO_value m d : Zpos (Pos.iter xO m d) = Zpos m * 2 ^ Zpos d.
Proof.
  induction d as [|d IH] using Pos.peano_ind.
  - simpl. lia.
  - rewrite Pos.iter_succ, Pos2Z.inj_succ, Z.pow_succ_r by lia.
    rewrite Pos2Z.inj_xO, IH. lia.
Qed.

Lemma shl_align_value m e ez :
  ez <= e -> Zpos (fst (shl_align m e ez)) = Zpos m * 2 ^ (e - ez).
Proof.
  intros H. unfold shl_align.
  destruct (ez - e) as [|d|d] eqn:E; simpl.
  - replace (e - ez) with 0 by lia. rewrite Z.pow_0_r. lia.
  - lia.
  - rewrite iter_xO_value.
    replace (e - ez) with (Zpos d) by (pose proof (Pos2Z.opp_pos d); lia).
    reflexivity.
Qed.

Lemma digits2_pos_bounds m :
  2 ^ (Zpos (digits2_pos m) - 1) <= Zpos m < 2 ^ Zpos (digits2_pos m).
Proof.
  induction m as [m IH|m IH|]; simpl digits2_pos.
  - rewrite Pos2Z.inj_succ, Z.pow_succ_r by lia.
    replace (Z.succ (Zpos (digits2_pos m)) - 1) with (Z.succ (Zpos (digits2_pos m) - 1)) by lia.
    rewrite Z.pow_succ_r by lia. lia.
  - rewrite Pos2Z.inj_succ, Z.pow_succ_r by lia.
    replace (Z.succ (Zpos (digits2_pos m)) - 1) with (Z.succ (Zpos (digits2_pos m) - 1)) by lia.
    rewrite Z.pow_succ_r by lia. lia.
  - simpl. lia.
Qed.

Lemma bounded_mantissa m e :
  bounded prec emax m e = true ->
  -1074 <= e /\ Zpos m < 2 ^ 53 /\ (-1074 < e -> 2 ^ 52 <= Zpos m).
Proof.
  unfold bounded, canonical_mantissa, fexp, SpecFloat.emin, prec, emax.
  intros H. apply andb_prop in H. destruct H as [H _]. apply Z.eqb_eq in H.
  assert (B := digits2_pos_bounds m).
  set (d := Zpos (digits2_pos m)) in *.
  assert (Hd : d <= 53) by lia.
  split; [lia|]. split.
  - apply Z.lt_le_trans with (2 ^ d); [lia|].
    apply Z.pow_le_mono_r; lia.
  - intros He. assert (d = 53) by lia. subst d.
    replace (2 ^ 52) with (2 ^ (53 - 1)) by reflexivity. 
    destruct B as [B _]. rewrite <- H0. exact B.
Qed.

Lemma lessThan_SFcompare x y :
  valid_binary prec emax x = true -> valid_binary prec emax y = true ->
  lessThan x y =
    match SFcompare x y with
    | Some Lt => Some true
    | Some _ => Some false
    | None => None
    end.
Proof.
  destruct x as [sx|sx| |sx mx ex], y as [sy|sy| |sy my ey]; simpl;
    try reflexivity; try (destruct sx; reflexivity); try (destruct sy; reflexivity);
    try (destruct sx, sy; reflexivity).
  intros Hx Hy.
  apply bounded_mantissa in Hx, Hy.
  destruct Hx as (Hx1 & Hx2 & Hx3), Hy as (Hy1 & Hy2 & Hy3).
  unfold aligned.
  rewrite !shl_align_value by lia.
  destruct (Z.compare_spec ex ey) as [E|E|E].
  - subst ey. rewrite Z.min_id, Z.sub_diag, Z.pow_0_r, !Z.mul_1_r.
    rewrite Pos.compare_cont_spec. unfold Pos.switch_Eq.
    change (Pos.compare mx my) with (Z.compare (Zpos mx) (Zpos my)).
    destruct sx, sy; cbv [cond_Zopp];
      destruct (Z.compare_spec (Zpos mx) (Zpos my)); simpl; f_equal;
      first [apply Z.ltb_lt; lia | apply Z.ltb_ge; lia].
  - rewrite Z.min_l, Z.sub_diag, Z.pow_0_r, Z.mul_1_r by lia.
    assert (Z.pos mx < Z.pos my * 2 ^ (ey - ex)).
    { apply Z.lt_le_trans with (2 ^ 52 * 2 ^ 1); [exact Hx2|].
      apply Z.mul_le_mono_nonneg; try lia.
      apply Z.pow_le_mono_r; lia. }
    destruct sx, sy; cbv [cond_Zopp]; f_equal;
      first [apply Z.ltb_lt; lia | apply Z.ltb_ge; lia].
  - rewrite Z.min_r, Z.sub_diag, Z.pow_0_r, Z.mul_1_r by lia.
    assert (Z.pos my < Z.pos mx * 2 ^ (ex - ey)).
    { apply Z.lt_le_trans with (2 ^ 52 * 2 ^ 1); [exact Hy2|].
      apply Z.mul_le_mono_nonneg; try lia.
      apply Z.pow_le_mono_r; lia. }
    destruct sx, sy; cbv [cond_Zopp]; f_equal;
      first [apply Z.ltb_lt; lia | apply Z.ltb_ge; lia].
Qed.

End NumberFacts.

(** ** Strings *)
Section StrFacts.
Import Number Str.

Lemma falsy_true s : falsy s = true <-> s = "".
Proof. destruct s; simpl; split; congruence. Qed.

Lemma falsy_false s : falsy s = false <-> s <> "".
Proof. destruct s; simpl; split; congruence. Qed.

(** The empty text does not parse: a text that parses is not empty. *)
Lemma parseFloat_not_falsy s : isNaN (parseFloat s) = false -> falsy s = false.
Proof. destruct s; [vm_compute; congruence | reflexivity]. Qed.

(** A few values of [parseFloat]: it skips white space, reads the longest
    numeric prefix and ignores what follows. *)
Lemma parseFloat_examples :
  parseFloat "10" = of_Z 10 /\ parseFloat "110" = of_Z 110 /\
  parseFloat "  12abc" = of_Z 12 /\ parseFloat "5." = of_Z 5 /\
  parseFloat "1e2" = of_Z 100 /\ parseFloat "-0" = S754_zero true /\
  parseFloat ".5" = div (of_Z 1) (of_Z 2) /\
  parseFloat "0.1" = S754_finite false 7205759403792794 (-56) /\
  parseFloat "Infinity" = Infinity /\
  parseFloat "abc" = NaN /\ parseFloat "" = NaN /\ parseFloat "." = NaN /\
  parseFloat "e5" = NaN /\ parseFloat "-" = NaN.
Proof. repeat split; vm_compute; reflexivity. Qed.

Lemma gt_lessThan x y : gt x y = true <-> lessThan y x = Some true.
Proof.
  unfold gt. destruct (lessThan y x) as [[|]|]; split; congruence.
Qed.

Lemma gt_not_le x y : gt x y = true -> le x y = false.
Proof.
  unfold gt, le. destruct (lessThan y x) as [[|]|]; congruence.
Qed.

(** Between two Numbers that are not NaN, [<=] and [>] are complementary. *)
Lemma le_negb_gt x y :
  isNaN x = false -> isNaN y = false -> le x y = negb (gt x y).
Proof.
  unfold gt, le.
  destruct x, y; simpl; try discriminate; intros _ _;
    repeat match goal with |- context [if ?b then _ else _] => destruct b end;
    try reflexivity;
    match goal with |- context [match ?c with _ => _ end] => destruct c end;
    reflexivity.
Qed.

End StrFacts.

(** ** The lookup in the catalog *)
Section LookupFacts.

(** What [find] returns is in the catalog and has the identifier asked for. *)
Lemma findVehicle_some vehicleTypes x v :
  findVehicle vehicleTypes x = Some v -> In v vehicleTypes /\ id v = x.
Proof.
  unfold findVehicle. intros H. apply find_some in H.
  destruct H as [H1 H2]. apply String.eqb_eq in H2. split; assumption.
Qed.

Lemma findVehicle_none vehicleTypes x :
  findVehicle vehicleTypes x = None <-> ~ In x (map id vehicleTypes).
Proof.
  unfold findVehicle. induction vehicleTypes as [|w l IH]; simpl.
  - split; auto.
  - destruct (String.eqb_spec (id w) x) as [E|E].
    + split; [discriminate | intros H; exfalso; apply H; left; exact E].
    + rewrite IH. split; [intros H [H1|H1]; auto | intros H H1; apply H; right; exact H1].
Qed.

End LookupFacts.

(** ** The bilingual application *)
Section AppFacts.
Import Number Str.
Import App.

Variable vehicleTypes : list VehicleType.
Variable translations : Language -> Translation.

Local Notation "'calculate'" := (calculateFuelConsumption vehicleTypes translations).
Local Notation "'lookup' s" := (findVehicle vehicleTypes (selectedVehicle s))
  (at level 10, s at level 9).

(** The five ways through [calculateFuelConsumption]. *)
Lemma calculate_missing s :
  falsy (kmA s) || falsy (kmB s) || falsy (selectedVehicle s) = true ->
  calculate s = Spec.failed (fillAllFields (errors (translations (language s)))) s.
Proof.
  intros H. unfold calculateFuelConsumption. rewrite H. reflexivity.
Qed.

Lemma calculate_invalid_number s :
  falsy (kmA s) || falsy (kmB s) || falsy (selectedVehicle s) = false ->
  isNaN (parseFloat (kmA s)) || isNaN (parseFloat (kmB s)) = true ->
  calculate s = Spec.failed (validNumbers (errors (translations (language s)))) s.
Proof.
  intros H1 H2. unfold calculateFuelConsumption.
  rewrite H1. cbv zeta. rewrite H2. reflexivity.
Qed.

Lemma calculate_invalid_range s :
  falsy (kmA s) || falsy (kmB s) || falsy (selectedVehicle s) = false ->
  isNaN (parseFloat (kmA s)) || isNaN (parseFloat (kmB s)) = false ->
  le (parseFloat (kmB s)) (parseFloat (kmA s)) = true ->
  calculate s = Spec.failed (kmBGreater (errors (translations (language s)))) s.
Proof.
  intros H1 H2 H3. unfold calculateFuelConsumption.
  rewrite H1. cbv zeta. rewrite H2, H3. reflexivity.
Qed.

Lemma calculate_unknown_vehicle s :
  falsy (kmA s) || falsy (kmB s) || falsy (selectedVehicle s) = false ->
  isNaN (parseFloat (kmA s)) || isNaN (parseFloat (kmB s)) = false ->
  le (parseFloat (kmB s)) (parseFloat (kmA s)) = false ->
  lookup s = None ->
  calculate s = Spec.failed (validVehicle (errors (translations (language s)))) s.
Proof.
  intros H1 H2 H3 H4. unfold calculateFuelConsumption.
  rewrite H1. cbv zeta. rewrite H2, H3, H4. reflexivity.
Qed.

Lemma calculate_success s v :
  falsy (kmA s) || falsy (kmB s) || falsy (selectedVehicle s) = false ->
  isNaN (parseFloat (kmA s)) || isNaN (parseFloat (kmB s)) = false ->
  le (parseFloat (kmB s)) (parseFloat (kmA s)) = false ->
  lookup s = Some v ->
  calculate s =
    setResult
      (Some (div (round (mul (div (sub (parseFloat (kmB s)) (parseFloat (kmA s)))
                                  (kmPerLiter v)) (of_Z 100))) (of_Z 100)))
      (setResult None (setError "" s)).
Proof.
  intros H1 H2 H3 H4. unfold calculateFuelConsumption.
  rewrite H1. cbv zeta. rewrite H2, H3, H4. reflexivity.
Qed.

Lemma all_filled s :
  kmA s <> "" -> kmB s <> "" -> selectedVehicle s <> "" ->
  falsy (kmA s) || falsy (kmB s) || falsy (selectedVehicle s) = false.
Proof.
  intros Ha Hb Hv.
  apply falsy_false in Ha, Hb, Hv. rewrite Ha, Hb, Hv. reflexivity.
Qed.

(** With a later end and a positive efficiency the scaled quotient is
    not negative, so [Math.round] rounds it half away from zero. *)
Lemma scaled_not_negative a b k :
  gt b a = true -> gt k (of_Z 0) = true ->
  not_negative (mul (div (sub b a) k) (of_Z 100)) = true.
Proof.
  intros Hab Hk.
  apply mul_not_negative; [|reflexivity].
  apply div_not_negative.
  - apply lessThan_sub_not_negative, gt_lessThan, Hab.
  - apply gt_lessThan in Hk. exact Hk.
Qed.

(** C1: when both distance texts parse as numbers, the parsed end is
    strictly above the parsed start, and the selected vehicle identifier is
    the identifier of a catalog vehicle, the only one that has it, whose
    [kmPerLiter] is positive, [calculate] stores
    [round((end - start) / kmPerLiter * 100) / 100] for that vehicle's
    [kmPerLiter], the rounding being half away from zero on the scaled value,
    and sets no error; for "10", "110" and 20 km per litre the result is 5. *)
Theorem C1_calculate_stores_rounded_fuel (s : State) (v : VehicleType) :
  isNaN (parseFloat (kmA s)) = false ->
  isNaN (parseFloat (kmB s)) = false ->
  gt (parseFloat (kmB s)) (parseFloat (kmA s)) = true ->
  selectedVehicle s <> "" ->
  In v vehicleTypes ->
  id v = selectedVehicle s ->
  (forall w, In w vehicleTypes -> id w = selectedVehicle s -> w = v) ->
  gt (kmPerLiter v) (of_Z 0) = true ->
  result (calculate s)
    = Some (Spec.fuel (parseFloat (kmA s)) (parseFloat (kmB s)) (kmPerLiter v))
  /\ error (calculate s) = ""
  /\ (kmA s = "10" -> kmB s = "110" -> kmPerLiter v = of_Z 20 ->
      result (calculate s) = Some (of_Z 5)).
Proof.
  intros Ha Hb Hgt Hsel Hin Hid Huniq Hk.
  assert (Hv : lookup s = Some v).
  { destruct (lookup s) as [w|] eqn:Hf.
    - destruct (findVehicle_some _ _ _ Hf) as [Hw1 Hw2].
      rewrite (Huniq w Hw1 Hw2). reflexivity.
    - apply findVehicle_none in Hf. exfalso. apply Hf.
      rewrite <- Hid. apply in_map, Hin. }
  assert (Hcalc := calculate_success s v).
  rewrite (parseFloat_not_falsy _ Ha), (parseFloat_not_falsy _ Hb) in Hcalc.
  apply falsy_false in Hsel. rewrite Hsel, Ha, Hb in Hcalc.
  specialize (Hcalc eq_refl eq_refl (gt_not_le _ _ Hgt) Hv).
  rewrite Hcalc. unfold Spec.fuel.
  rewrite (round_not_negative _ (scaled_not_negative _ _ _ Hgt Hk)).
  split; [reflexivity|]. split; [reflexivity|].
  intros E1 E2 E3. rewrite E1, E2, E3. vm_compute. reflexivity.
Qed.

Lemma existsb_find {A} (p : A -> bool) (l : list A) :
  existsb p l = match find p l with Some _ => true | None => false end.
Proof.
  induction l as [|x l IH]; simpl; [reflexivity|].
  destruct (p x); [reflexivity | exact IH].
Qed.

(** [calculate] and the first failing check of the specification: the
    checks are made in the order of [Spec.order] and the first that fails
    decides; when none fails the vehicle is found and its result stored. *)
Lemma calculate_first_failure s :
  match Spec.first_failure vehicleTypes (kmA s) (kmB s) (selectedVehicle s) with
  | Some k => calculate s = Spec.failed (Spec.message (translations (language s)) k) s
  | None =>
      exists v, lookup s = Some v /\
        calculate s =
          setResult
            (Some (div (round (mul (div (sub (parseFloat (kmB s)) (parseFloat (kmA s)))
                                        (kmPerLiter v)) (of_Z 100))) (of_Z 100)))
            (setResult None (setError "" s))
  end.
Proof.
  unfold Spec.first_failure, Spec.order, find, Spec.fails.
  destruct (falsy (kmA s) || falsy (kmB s) || falsy (selectedVehicle s)) eqn:H1.
  { apply calculate_missing, H1. }
  destruct (isNaN (parseFloat (kmA s)) || isNaN (parseFloat (kmB s))) eqn:H2.
  { apply calculate_invalid_number; assumption. }
  destruct (le (parseFloat (kmB s)) (parseFloat (kmA s))) eqn:H3.
  { apply calculate_invalid_range; assumption. }
  rewrite existsb_find. fold (lookup s).
  destruct (lookup s) as [v|] eqn:H4; cbn [negb].
  - exists v. split; [reflexivity|]. apply calculate_success; assumption.
  - apply calculate_unknown_vehicle; assumption.
Qed.

(** C2: after [calculate], from any state, the result and the error are
    not both present; every operation (calculate, reset, language toggle,
    the three field edits) preserves this; so it holds in every state
    reachable from the initial one. *)
Theorem C2_result_error_exclusive :
  (forall s, Spec.exclusive (calculate s))
  /\ (forall a s, Spec.exclusive s ->
                  Spec.exclusive (step vehicleTypes translations a s))
  /\ (forall s, reachable vehicleTypes translations s -> Spec.exclusive s).
Proof.
  assert (Hcalc : forall s, Spec.exclusive (calculate s)).
  { intros s. assert (H := calculate_first_failure s).
    destruct (Spec.first_failure _ _ _ _).
    - rewrite H. left. reflexivity.
    - destruct H as (v & _ & H). rewrite H. right. reflexivity. }
  assert (Hstep : forall a s, Spec.exclusive s ->
                    Spec.exclusive (step vehicleTypes translations a s)).
  { intros a s Hs. destruct a; cbn [step]; try exact Hs.
    - apply Hcalc.
    - left. reflexivity.
    - right. reflexivity. }
  repeat split; trivial.
  induction 1 as [|a s _ IH]; [left; reflexivity | apply Hstep, IH].
Qed.

(** C3: when the start text, the end text or the vehicle identifier is
    empty, [calculate] sets the missing-field message of the active
    language and leaves the result absent. *)
Theorem C3_missing_field (s : State) :
  kmA s = "" \/ kmB s = "" \/ selectedVehicle s = "" ->
  error (calculate s) = fillAllFields (errors (translations (language s)))
  /\ result (calculate s) = None.
Proof.
  intros H. rewrite calculate_missing; [split; reflexivity|].
  destruct H as [H|[H|H]]; apply falsy_true in H; rewrite H;
    rewrite ?orb_true_r; reflexivity.
Qed.

(** C4, amended: when the three fields are filled and [parseFloat] of the
    start text or of the end text is NaN, [calculate] sets the
    invalid-number message and leaves the result absent. *)
Theorem C4_invalid_number (s : State) :
  kmA s <> "" -> kmB s <> "" -> selectedVehicle s <> "" ->
  isNaN (parseFloat (kmA s)) = true \/ isNaN (parseFloat (kmB s)) = true ->
  error (calculate s) = validNumbers (errors (translations (language s)))
  /\ result (calculate s) = None.
Proof.
  intros Ha Hb Hv H.
  rewrite calculate_invalid_number; [split; reflexivity | | ].
  - apply all_filled; assumption.
  - destruct H as [H|H]; rewrite H; rewrite ?orb_true_r; reflexivity.
Qed.

(** C5, amended: when a vehicle identifier is selected, both distance
    texts parse as numbers and the parsed end is at most the parsed start
    (equal values included), [calculate] sets the invalid-range message and
    leaves the result absent. *)
Theorem C5_invalid_range (s : State) :
  selectedVehicle s <> "" ->
  isNaN (parseFloat (kmA s)) = false ->
  isNaN (parseFloat (kmB s)) = false ->
  le (parseFloat (kmB s)) (parseFloat (kmA s)) = true ->
  error (calculate s) = kmBGreater (errors (translations (language s)))
  /\ result (calculate s) = None.
Proof.
  intros Hv Ha Hb Hle.
  rewrite calculate_invalid_range; [split; reflexivity | | | assumption].
  - apply falsy_false in Hv.
    rewrite (parseFloat_not_falsy _ Ha), (parseFloat_not_falsy _ Hb), Hv.
    reflexivity.
  - rewrite Ha, Hb. reflexivity.
Qed.

(** C6: [calculate] first clears the error and the result (what they
    held before has no influence on the state it leaves), and then the
    first check that fails, in the order missing field, invalid number,
    invalid range, unknown vehicle, alone decides the error: its message is
    set and the result stays absent whatever the later checks would give;
    when no check fails there is no error and a result is stored. *)
Theorem C6_first_failing_check_wins (s : State) :
  (forall e r, calculate (setError e (setResult r s)) = calculate s)
  /\ match Spec.first_failure vehicleTypes (kmA s) (kmB s) (selectedVehicle s) with
     | Some k =>
         error (calculate s) = Spec.message (translations (language s)) k
         /\ result (calculate s) = None
     | None => error (calculate s) = "" /\ result (calculate s) <> None
     end.
Proof.
  split.
  - intros e r. unfold calculateFuelConsumption. cbn [kmA kmB selectedVehicle language setError setResult].
    repeat match goal with
           | |- context [if ?b then _ else _] => destruct b
           | |- context [match findVehicle ?a ?b with _ => _ end] =>
               destruct (findVehicle a b)
           end; reflexivity.
  - assert (H := calculate_first_failure s).
    destruct (Spec.first_failure _ _ _ _).
    + rewrite H. split; reflexivity.
    + destruct H as (v & _ & H). rewrite H. split; [reflexivity|].
      cbn [result setResult]. discriminate.
Qed.

(** C7: [reset] puts the start text, the end text, the vehicle selection,
    the result and the error back to their initial values, from any state;
    the language is the one field it leaves as it is. *)
Theorem C7_reset_restores_defaults (s : State) :
  kmA (resetForm s) = "" /\ kmB (resetForm s) = ""
  /\ selectedVehicle (resetForm s) = "" /\ result (resetForm s) = None
  /\ error (resetForm s) = ""
  /\ resetForm s = setLanguage (fun _ => language s) initial.
Proof. repeat split. Qed.

(** C8: [toggleLanguage] switches the language to the other of the two
    values and clears the error; the start text, the end text, the vehicle
    selection and the result stay as they are. *)
Theorem C8_toggle_language_frame (s : State) :
  language (toggleLanguage s) = match language s with EN => ID | ID => EN end
  /\ language (toggleLanguage s) <> language s
  /\ language (toggleLanguage (toggleLanguage s)) = language s
  /\ error (toggleLanguage s) = ""
  /\ kmA (toggleLanguage s) = kmA s
  /\ kmB (toggleLanguage s) = kmB s
  /\ selectedVehicle (toggleLanguage s) = selectedVehicle s
  /\ result (toggleLanguage s) = result s.
Proof.
  cbn. destruct (language s); repeat split; discriminate.
Qed.

(** C9: the distance display is rendered exactly when both distance
    texts are non-empty, both parse as numbers and the parsed end is
    strictly above the parsed start; it then shows [end - start], the plain
    difference of the two parsed Numbers with no rounding step; and it
    depends on the two texts alone, so it is the same as in the state that
    the two edits reach from the initial state, with no [calculate]. *)
Theorem C9_distance_display (s : State) :
  (forall d, distanceDisplay s = Some d <->
     kmA s <> "" /\ kmB s <> ""
     /\ isNaN (parseFloat (kmA s)) = false /\ isNaN (parseFloat (kmB s)) = false
     /\ gt (parseFloat (kmB s)) (parseFloat (kmA s)) = true
     /\ d = sub (parseFloat (kmB s)) (parseFloat (kmA s)))
  /\ distanceDisplay s = distanceDisplay (setKmB (kmB s) (setKmA (kmA s) initial)).
Proof.
  split; [|reflexivity].
  intros d. unfold distanceDisplay. rewrite <- !falsy_false.
  destruct (falsy (kmA s)), (falsy (kmB s)),
    (isNaN (parseFloat (kmA s))), (isNaN (parseFloat (kmB s))),
    (gt (parseFloat (kmB s)) (parseFloat (kmA s))); cbn [negb andb];
    split; try discriminate; try (intros (?&?&?&?&?&?); discriminate).
  - intros [= <-]. repeat split.
  - intros (_&_&_&_&_&->). reflexivity.
Qed.

End AppFacts.

(** ** The two versions side by side *)
Section Versions.
Import Number Str.

Variable vehicleTypes : list VehicleType.

(** The English-only [calculate] and the first failing check. *)
Lemma english_calculate_first_failure (s : EnglishApp.State) :
  match Spec.first_failure vehicleTypes (EnglishApp.kmA s) (EnglishApp.kmB s)
          (EnglishApp.selectedVehicle s) with
  | Some k =>
      EnglishApp.calculateFuelConsumption vehicleTypes s
      = EnglishApp.setError (Spec.english_message k)
          (EnglishApp.setResult None (EnglishApp.setError "" s))
  | None =>
      exists v,
        findVehicle vehicleTypes (EnglishApp.selectedVehicle s) = Some v /\
        EnglishApp.calculateFuelConsumption vehicleTypes s
        = EnglishApp.setResult
            (Some (div (round (mul (div (sub (parseFloat (EnglishApp.kmB s))
                                             (parseFloat (EnglishApp.kmA s)))
                                        (kmPerLiter v)) (of_Z 100))) (of_Z 100)))
            (EnglishApp.setResult None (EnglishApp.setError "" s))
  end.
Proof.
  unfold Spec.first_failure, Spec.order, find, Spec.fails,
    EnglishApp.calculateFuelConsumption.
  destruct (falsy (EnglishApp.kmA s) || falsy (EnglishApp.kmB s)
            || falsy (EnglishApp.selectedVehicle s)); [reflexivity|].
  cbv zeta.
  destruct (isNaN (parseFloat (EnglishApp.kmA s))
            || isNaN (parseFloat (EnglishApp.kmB s))); [reflexivity|].
  destruct (le (parseFloat (EnglishApp.kmB s)) (parseFloat (EnglishApp.kmA s)));
    [reflexivity|].
  rewrite existsb_find.
  fold (findVehicle vehicleTypes (EnglishApp.selectedVehicle s)).
  destruct (findVehicle vehicleTypes (EnglishApp.selectedVehicle s)) as [v|];
    cbn [negb]; [|reflexivity].
  exists v. split; reflexivity.
Qed.

(** The English messages tell the four checks apart, and none is empty:
    the message shown names the check that failed. *)
Lemma english_message_injective k k' :
  Spec.english_message k = Spec.english_message k' -> k = k'.
Proof. destruct k, k'; simpl; congruence. Qed.

Lemma english_message_not_empty k : Spec.english_message k <> "".
Proof. destruct k; discriminate. Qed.

(** C10: on the same start text, end text and vehicle identifier, the
    English-only [calculate] and the bilingual one either both fail at the
    same check (each with its own message for it, neither storing a result)
    or both store the same number and no error; both leave the three inputs
    as they were. *)
Theorem C10_versions_agree translations
    (s1 : EnglishApp.State) (s2 : App.State) :
  EnglishApp.kmA s1 = App.kmA s2 ->
  EnglishApp.kmB s1 = App.kmB s2 ->
  EnglishApp.selectedVehicle s1 = App.selectedVehicle s2 ->
  let s1' := EnglishApp.calculateFuelConsumption vehicleTypes s1 in
  let s2' := App.calculateFuelConsumption vehicleTypes translations s2 in
  ((exists k,
      Spec.first_failure vehicleTypes (App.kmA s2) (App.kmB s2)
        (App.selectedVehicle s2) = Some k
      /\ EnglishApp.error s1' = Spec.english_message k
      /\ App.error s2' = Spec.message (translations (App.language s2)) k
      /\ EnglishApp.result s1' = None /\ App.result s2' = None)
   \/ (exists r,
         EnglishApp.result s1' = Some r /\ App.result s2' = Some r
         /\ EnglishApp.error s1' = "" /\ App.error s2' = ""))
  /\ EnglishApp.kmA s1' = App.kmA s2'
  /\ EnglishApp.kmB s1' = App.kmB s2'
  /\ EnglishApp.selectedVehicle s1' = App.selectedVehicle s2'.
Proof.
  intros Ha Hb Hv s1' s2'. subst s1' s2'.
  assert (H1 := english_calculate_first_failure s1).
  assert (H2 := calculate_first_failure vehicleTypes translations s2).
  rewrite Ha, Hb, Hv in H1.
  destruct (Spec.first_failure _ _ _ _) as [k|].
  - rewrite H1, H2. split; [|repeat split; assumption].
    left. exists k. repeat split.
  - destruct H1 as (v1 & Hv1 & H1), H2 as (v2 & Hv2 & H2).
    rewrite Hv1 in Hv2. injection Hv2 as <-.
    rewrite H1, H2. split; [|repeat split; assumption].
    right. eexists. repeat split.
Qed.

End Versions.

(** ** Evaluation on concrete states *)
Section Evaluation.
Import Number Str.

(** A text with a numeric prefix is not rejected: "12abc" counts as 12,
    and 88 km at 20 km per litre need 4.4 litres. *)
Lemma calculate_numeric_prefix :
  App.calculateFuelConsumption Sample.vehicleTypes Sample.translations
    (Sample.form "12abc" "100" "car" App.EN)
  = App.setResult (Some (parseFloat "4.4")) (Sample.form "12abc" "100" "car" App.EN).
Proof. vm_compute. reflexivity. Qed.

(** The distance display is not rounded to two decimals. *)
Lemma distanceDisplay_unrounded :
  App.distanceDisplay (Sample.form "0" "0.125" "" App.ID) = Some (parseFloat "0.125").
Proof. vm_compute. reflexivity. Qed.

Lemma C1_witness :
  (isNaN (parseFloat (App.kmA (Sample.form "10" "110" "car" App.ID))) = false
   /\ isNaN (parseFloat (App.kmB (Sample.form "10" "110" "car" App.ID))) = false
   /\ gt (parseFloat (App.kmB (Sample.form "10" "110" "car" App.ID)))
         (parseFloat (App.kmA (Sample.form "10" "110" "car" App.ID))) = true
   /\ App.selectedVehicle (Sample.form "10" "110" "car" App.ID) <> ""
   /\ In Sample.car Sample.garage
   /\ id Sample.car = App.selectedVehicle (Sample.form "10" "110" "car" App.ID)
   /\ (forall w, In w Sample.garage ->
                 id w = App.selectedVehicle (Sample.form "10" "110" "car" App.ID) ->
                 w = Sample.car)
   /\ gt (kmPerLiter Sample.car) (of_Z 0) = true)
  /\ App.result (App.calculateFuelConsumption Sample.garage Sample.translations
                   (Sample.form "10" "110" "car" App.ID))
     = Some (of_Z 5)
  /\ App.error (App.calculateFuelConsumption Sample.garage Sample.translations
                  (Sample.form "10" "110" "car" App.ID))
     = "".
Proof.
  assert (Hsel : App.selectedVehicle (Sample.form "10" "110" "car" App.ID) <> "")
    by discriminate.
  assert (Hin : In Sample.car Sample.garage) by (right; left; reflexivity).
  assert (Huniq : forall w, In w Sample.garage ->
            id w = App.selectedVehicle (Sample.form "10" "110" "car" App.ID) ->
            w = Sample.car).
  { intros w [<-|[<-|[]]] E; [discriminate E | reflexivity]. }
  split; [repeat split; assumption|].
  destruct (C1_calculate_stores_rounded_fuel Sample.garage Sample.translations
              (Sample.form "10" "110" "car" App.ID) Sample.car
              eq_refl eq_refl eq_refl Hsel Hin eq_refl Huniq eq_refl)
    as (_ & Herr & H5).
  split; [exact (H5 eq_refl eq_refl eq_refl) | exact Herr].
Defined.

Lemma C2_witness :
  Spec.exclusive (Sample.form "10" "110" "car" App.ID)
  /\ Spec.exclusive
       (App.step Sample.vehicleTypes Sample.translations App.Calculate
          (Sample.form "10" "110" "car" App.ID)).
Proof.
  assert (H : Spec.exclusive (Sample.form "10" "110" "car" App.ID))
    by (left; reflexivity).
  split; [exact H|].
  exact (proj1 (proj2 (C2_result_error_exclusive Sample.vehicleTypes
                         Sample.translations)) App.Calculate _ H).
Defined.

Lemma C3_witness :
  (App.kmA (Sample.form "" "100" "car" App.EN) = ""
   \/ App.kmB (Sample.form "" "100" "car" App.EN) = ""
   \/ App.selectedVehicle (Sample.form "" "100" "car" App.EN) = "")
  /\ App.error (App.calculateFuelConsumption Sample.vehicleTypes Sample.translations
                  (Sample.form "" "100" "car" App.EN))
     = "Please fill in all fields"
  /\ App.result (App.calculateFuelConsumption Sample.vehicleTypes Sample.translations
                   (Sample.form "" "100" "car" App.EN))
     = None.
Proof.
  split; [left; reflexivity|].
  exact (C3_missing_field Sample.vehicleTypes Sample.translations
           (Sample.form "" "100" "car" App.EN) (or_introl eq_refl)).
Defined.

(** C4, as stated, fails: "abc" is a non-empty text that does not parse,
    yet with no vehicle selected the message is the missing-field one. *)
Lemma C4_counterexample :
  App.kmA (Sample.form "abc" "100" "" App.EN) <> ""
  /\ isNaN (parseFloat (App.kmA (Sample.form "abc" "100" "" App.EN))) = true
  /\ App.error (App.calculateFuelConsumption Sample.vehicleTypes Sample.translations
                  (Sample.form "abc" "100" "" App.EN))
     = "Please fill in all fields"
  /\ App.error (App.calculateFuelConsumption Sample.vehicleTypes Sample.translations
                  (Sample.form "abc" "100" "" App.EN))
     <> App.validNumbers (App.errors (Sample.translations App.EN)).
Proof. repeat split; try discriminate; reflexivity. Qed.

Lemma C4_witness :
  (App.kmA (Sample.form "abc" "100" "car" App.EN) <> ""
   /\ App.kmB (Sample.form "abc" "100" "car" App.EN) <> ""
   /\ App.selectedVehicle (Sample.form "abc" "100" "car" App.EN) <> ""
   /\ isNaN (parseFloat (App.kmA (Sample.form "abc" "100" "car" App.EN))) = true)
  /\ App.error (App.calculateFuelConsumption Sample.vehicleTypes Sample.translations
                  (Sample.form "abc" "100" "car" App.EN))
     = "Please enter valid numbers for kilometers"
  /\ App.result (App.calculateFuelConsumption Sample.vehicleTypes Sample.translations
                   (Sample.form "abc" "100" "car" App.EN))
     = None.
Proof.
  split; [repeat split; discriminate|].
  apply (C4_invalid_number Sample.vehicleTypes Sample.translations
           (Sample.form "abc" "100" "car" App.EN));
    try discriminate.
  left; reflexivity.
Defined.

(** C5, as stated, fails: "50" and "50" parse and the end is not above
    the start, yet with no vehicle selected the message is the
    missing-field one. *)
Lemma C5_counterexample :
  isNaN (parseFloat (App.kmA (Sample.form "50" "50" "" App.EN))) = false
  /\ isNaN (parseFloat (App.kmB (Sample.form "50" "50" "" App.EN))) = false
  /\ le (parseFloat (App.kmB (Sample.form "50" "50" "" App.EN)))
        (parseFloat (App.kmA (Sample.form "50" "50" "" App.EN))) = true
  /\ App.error (App.calculateFuelConsumption Sample.vehicleTypes Sample.translations
                  (Sample.form "50" "50" "" App.EN))
     = "Please fill in all fields"
  /\ App.error (App.calculateFuelConsumption Sample.vehicleTypes Sample.translations
                  (Sample.form "50" "50" "" App.EN))
     <> App.kmBGreater (App.errors (Sample.translations App.EN)).
Proof. repeat split; try discriminate; reflexivity. Qed.

Lemma C5_witness :
  (App.selectedVehicle (Sample.form "50" "50" "car" App.EN) <> ""
   /\ isNaN (parseFloat (App.kmA (Sample.form "50" "50" "car" App.EN))) = false
   /\ isNaN (parseFloat (App.kmB (Sample.form "50" "50" "car" App.EN))) = false
   /\ le (parseFloat (App.kmB (Sample.form "50" "50" "car" App.EN)))
         (parseFloat (App.kmA (Sample.form "50" "50" "car" App.EN))) = true)
  /\ App.error (App.calculateFuelConsumption Sample.vehicleTypes Sample.translations
                  (Sample.form "50" "50" "car" App.EN))
     = "KM B must be greater than KM A"
  /\ App.result (App.calculateFuelConsumption Sample.vehicleTypes Sample.translations
                   (Sample.form "50" "50" "car" App.EN))
     = None.
Proof.
  split; [repeat split; discriminate|].
  apply (C5_invalid_range Sample.vehicleTypes Sample.translations
           (Sample.form "50" "50" "car" App.EN));
    try discriminate; reflexivity.
Defined.

Lemma C10_witness :
  (EnglishApp.kmA (Sample.english_form "50" "50" "car")
     = App.kmA (Sample.form "50" "50" "car" App.ID)
   /\ EnglishApp.kmB (Sample.english_form "50" "50" "car")
        = App.kmB (Sample.form "50" "50" "car" App.ID)
   /\ EnglishApp.selectedVehicle (Sample.english_form "50" "50" "car")
        = App.selectedVehicle (Sample.form "50" "50" "car" App.ID))
  /\ EnglishApp.error
       (EnglishApp.calculateFuelConsumption Sample.vehicleTypes
          (Sample.english_form "50" "50" "car"))
     = "KM B must be greater than KM A"
  /\ App.error
       (App.calculateFuelConsumption Sample.vehicleTypes Sample.translations
          (Sample.form "50" "50" "car" App.ID))
     = "errors.kmBGreater".
Proof.
  split; [repeat split|].
  destruct (C10_versions_agree Sample.vehicleTypes Sample.translations
              (Sample.english_form "50" "50" "car")
              (Sample.form "50" "50" "car" App.ID) eq_refl eq_refl eq_refl)
    as [[(k & Hk & H1 & H2 & _) | (r & H1 & _)] _].
  - injection Hk as <-. split; [exact H1 | exact H2].
  - discriminate H1.
Defined.

End Evaluation.

(** ** Values of the arithmetic: never NaN, never negative *)
Section NumberValues.
Import Number.

Lemma shr_1_nonneg mrs : 0 <= shr_m mrs -> 0 <= shr_m (shr_1 mrs).
Proof.
  destruct mrs as [m r t]. simpl.
  destruct m as [|[p|p|]|[p|p|]]; simpl; lia.
Qed.

Lemma iter_pos_shr_1_nonneg p mrs :
  0 <= shr_m mrs -> 0 <= shr_m (iter_pos shr_1 p mrs).
Proof.
  revert mrs. induction p as [p IH|p IH|]; intros mrs H; simpl.
  - apply IH, IH, shr_1_nonneg, H.
  - apply IH, IH, H.
  - apply shr_1_nonneg, H.
Qed.

Lemma shr_fexp_nonneg m e l :
  0 <= m -> 0 <= shr_m (fst (shr_fexp prec emax m e l)).
Proof.
  intros H. unfold shr_fexp, shr.
  assert (H0 : 0 <= shr_m (shr_record_of_loc m l)).
  { destruct l as [|[]]; exact H. }
  destruct (fexp prec emax (Zdigits2 m + e) - e); simpl; trivial.
  apply iter_pos_shr_1_nonneg, H0.
Qed.

Lemma round_nearest_even_nonneg m l : 0 <= m -> 0 <= round_nearest_even m l.
Proof.
  intros H. destruct l as [|[]]; simpl; try lia.
  destruct (Z.even m); lia.
Qed.

Lemma binary_round_aux_nonneg_value m e l :
  0 <= m -> nonneg_value (binary_round_aux prec emax false m e l) = true.
Proof.
  intros H. unfold binary_round_aux.
  assert (H1 := shr_fexp_nonneg m e l H).
  destruct (shr_fexp prec emax m e l) as [mrs' e']. simpl in H1.
  assert (H2 := shr_fexp_nonneg _ e' loc_Exact
                  (round_nearest_even_nonneg _ (loc_of_shr_record mrs') H1)).
  destruct (shr_fexp prec emax _ e' loc_Exact) as [mrs'' e'']. simpl in H2.
  destruct (shr_m mrs''); try lia; simpl; trivial.
  destruct (_ <=? _); reflexivity.
Qed.

Lemma binary_normalize_nonneg_value n e :
  0 < n -> nonneg_value (binary_normalize prec emax n e false) = true.
Proof.
  intros Hn. destruct n as [|p|p]; try lia.
  unfold binary_normalize, binary_round.
  destruct (shl_align p e _) as [mz ez].
  apply binary_round_aux_nonneg_value. lia.
Qed.

Lemma lessThan_sub_nonneg_value a b :
  lessThan a b = Some true -> nonneg_value (sub b a) = true.
Proof.
  unfold sub.
  destruct a as [sa|sa| |sa ma ea], b as [sb|sb| |sb mb eb]; simpl;
    try discriminate; try (intros [= H]);
    try (destruct sa; simpl in *; congruence);
    try (destruct sb; simpl in *; congruence);
    try (destruct sa, sb; simpl in *; congruence).
  apply Z.ltb_lt in H. unfold aligned in H.
  rewrite (Z.min_comm eb ea).
  apply binary_normalize_nonneg_value. lia.
Qed.

Lemma SFdiv_core_binary_nonneg m1 e1 m2 e2 :
  0 < m1 -> 0 < m2 ->
  0 <= fst (fst (SFdiv_core_binary prec emax m1 e1 m2 e2)).
Proof.
  intros H1 H2. unfold SFdiv_core_binary.
  set (s := e1 - e2 - _).
  set (m' := match s with Z.pos _ => Z.shiftl m1 s | 0 => m1 | Z.neg _ => 0 end).
  assert (Hm' : 0 <= m').
  { subst m'. destruct s; try lia. apply Z.shiftl_nonneg. lia. }
  assert (Hq := Z.div_pos m' m2 Hm' H2).
  unfold Z.div in Hq.
  destruct (Z.div_eucl m' m2) as [q r]. exact Hq.
Qed.

Lemma div_nonneg_value x k :
  nonneg_value x = true -> positive_finite k = true ->
  nonneg_value (div x k) = true.
Proof.
  unfold div.
  destruct x as [sx|sx| |sx mx ex], k as [sk|sk| |[|] mk ek]; simpl;
    try discriminate; intros Hx _;
    try (destruct sx; simpl in *; congruence).
  destruct sx; try discriminate.
  assert (H := SFdiv_core_binary_nonneg (Z.pos mx) ex (Z.pos mk) ek eq_refl eq_refl).
  destruct (SFdiv_core_binary prec emax (Z.pos mx) ex (Z.pos mk) ek) as [[mz ez] lz].
  apply binary_round_aux_nonneg_value. exact H.
Qed.

Lemma mul_nonneg_value x y :
  nonneg_value x = true -> positive_finite y = true ->
  nonneg_value (mul x y) = true.
Proof.
  unfold mul.
  destruct x as [sx|sx| |sx mx ex], y as [sy|sy| |[|] my ey]; simpl;
    try discriminate; intros Hx _;
    try (destruct sx; simpl in *; congruence).
  destruct sx; try discriminate.
  apply binary_round_aux_nonneg_value. lia.
Qed.

Lemma round_nonneg_value x : nonneg_value x = true -> nonneg_value (round x) = true.
Proof.
  destruct x as [s|s| |s m e]; trivial.
  intros H. simpl in H. destruct s; try discriminate.
  unfold round. destruct (0 <=? e) eqn:He; [reflexivity|].
  apply Z.leb_gt in He. cbv zeta. cbv [cond_Zopp].
  set (n := (2 * Z.pos m + 2 ^ (- e)) / 2 ^ (1 - e)).
  assert (Hn : 0 <= n).
  { apply Z.div_pos.
    - assert (0 < 2 ^ (- e)) by (apply Z.pow_pos_nonneg; lia). lia.
    - apply Z.pow_pos_nonneg; lia. }
  destruct (n =? 0) eqn:E; [reflexivity|].
  apply Z.eqb_neq in E. apply binary_normalize_nonneg_value. lia.
Qed.

Lemma lessThan_asym a b : lessThan a b = Some true -> lessThan b a = Some false.
Proof.
  destruct a as [sa|sa| |sa ma ea], b as [sb|sb| |sb mb eb]; simpl;
    try discriminate; try (intros [= H]);
    try (destruct sa; simpl in *; congruence);
    try (destruct sb; simpl in *; congruence);
    try (destruct sa, sb; simpl in *; congruence).
  rewrite (Z.min_comm eb ea). f_equal.
  apply Z.ltb_lt in H. apply Z.ltb_ge. lia.
Qed.

Lemma lessThan_irrefl a : isNaN a = false -> lessThan a a = Some false.
Proof.
  destruct a as [sa|sa| |sa ma ea]; simpl; try discriminate; intros _;
    try (destruct sa; reflexivity).
  f_equal. apply Z.ltb_irrefl.
Qed.

End NumberValues.

(** ** The catalog lookup *)
Section CatalogFacts.

(** X11: with identifiers that are unique in the catalog, looking up the
    identifier of a catalog vehicle finds that very vehicle. *)
Theorem X11_findVehicle_unique (vehicleTypes : list VehicleType) (v : VehicleType) :
  NoDup (map id vehicleTypes) -> In v vehicleTypes ->
  findVehicle vehicleTypes (id v) = Some v.
Proof.
  unfold findVehicle. induction vehicleTypes as [|w l IH]; simpl; [tauto|].
  intros Hnd [E|Hin].
  - subst w. rewrite String.eqb_refl. reflexivity.
  - inversion Hnd as [|? ? Hw Hl]; subst.
    destruct (String.eqb_spec (id w) (id v)) as [E|E].
    + exfalso. apply Hw. rewrite E. apply in_map, Hin.
    + apply IH; assumption.
Qed.

End CatalogFacts.

(** ** More on the bilingual application *)
Section MoreAppFacts.
Import Number Str.
Import App.

Variable vehicleTypes : list VehicleType.
Variable translations : Language -> Translation.

Local Notation "'calculate'" := (calculateFuelConsumption vehicleTypes translations).

(** [calculate] reads nothing but the three inputs and the language. *)
Lemma calculate_ext s s' :
  kmA s = kmA s' -> kmB s = kmB s' -> selectedVehicle s = selectedVehicle s' ->
  language s = language s' -> calculate s = calculate s'.
Proof.
  destruct s as [a b v r e l], s' as [a' b' v' r' e' l']. simpl.
  intros -> -> -> ->. unfold calculateFuelConsumption.
  cbn [kmA kmB selectedVehicle language setError setResult].
  repeat match goal with
         | |- context [if ?c then _ else _] => destruct c
         | |- context [match findVehicle ?x ?y with _ => _ end] =>
             destruct (findVehicle x y)
         end; reflexivity.
Qed.

Lemma calculate_inputs s :
  kmA (calculate s) = kmA s /\ kmB (calculate s) = kmB s
  /\ selectedVehicle (calculate s) = selectedVehicle s
  /\ language (calculate s) = language s.
Proof.
  assert (H := calculate_first_failure vehicleTypes translations s).
  destruct (Spec.first_failure _ _ _ _).
  - rewrite H. repeat split.
  - destruct H as (v & _ & H). rewrite H. repeat split.
Qed.

(** The distance display, unfolded. *)
Lemma distanceDisplay_some s d :
  distanceDisplay s = Some d ->
  falsy (kmA s) = false /\ falsy (kmB s) = false
  /\ isNaN (parseFloat (kmA s)) = false /\ isNaN (parseFloat (kmB s)) = false
  /\ gt (parseFloat (kmB s)) (parseFloat (kmA s)) = true
  /\ d = sub (parseFloat (kmB s)) (parseFloat (kmA s)).
Proof.
  unfold distanceDisplay.
  destruct (falsy (kmA s)), (falsy (kmB s)),
    (isNaN (parseFloat (kmA s))), (isNaN (parseFloat (kmB s))),
    (gt (parseFloat (kmB s)) (parseFloat (kmA s))); cbn [negb andb];
    try discriminate.
  intros [= <-]. repeat split.
Qed.

(** X1: calculating twice gives the state that calculating once gives. *)
Theorem X1_calculate_idempotent (s : State) :
  calculateFuelConsumption vehicleTypes translations
    (calculateFuelConsumption vehicleTypes translations s)
  = calculateFuelConsumption vehicleTypes translations s.
Proof.
  destruct (calculate_inputs s) as (Ha & Hb & Hv & Hl).
  apply calculate_ext; assumption.
Qed.

(** X2: [calculate] changes neither the start text, the end text, the
    vehicle selection nor the language, whichever way it ends. *)
Theorem X2_calculate_keeps_inputs (s : State) :
  kmA (calculateFuelConsumption vehicleTypes translations s) = kmA s
  /\ kmB (calculateFuelConsumption vehicleTypes translations s) = kmB s
  /\ selectedVehicle (calculateFuelConsumption vehicleTypes translations s)
     = selectedVehicle s
  /\ language (calculateFuelConsumption vehicleTypes translations s) = language s.
Proof. exact (calculate_inputs s). Qed.

(** X4: when the distance display is rendered and the selected value is a
    non-empty option of the vehicle selector, [calculate] stores a result
    and no error: the unknown-vehicle branch is not reached from the
    selector. *)
Theorem X4_calculate_succeeds (s : State) (d : number) :
  distanceDisplay s = Some d ->
  selectedVehicle s <> "" ->
  In (selectedVehicle s) (vehicleOptions vehicleTypes) ->
  exists v, In v vehicleTypes /\ id v = selectedVehicle s
    /\ result (calculate s)
       = Some (div (round (mul (div d (kmPerLiter v)) (of_Z 100))) (of_Z 100))
    /\ error (calculate s) = "".
Proof.
  intros Hd Hsel Hin.
  apply distanceDisplay_some in Hd. destruct Hd as (Ha & Hb & Na & Nb & Hgt & ->).
  destruct Hin as [E|Hin]; [congruence|].
  destruct (findVehicle vehicleTypes (selectedVehicle s)) as [v|] eqn:Hf.
  - exists v. destruct (findVehicle_some _ _ _ Hf) as [H1 H2].
    split; [exact H1|]. split; [exact H2|].
    rewrite (calculate_success vehicleTypes translations s v).
    + split; reflexivity.
    + apply falsy_false in Hsel. rewrite Ha, Hb, Hsel. reflexivity.
    + rewrite Na, Nb. reflexivity.
    + apply gt_not_le, Hgt.
    + exact Hf.
  - apply findVehicle_none in Hf. contradiction.
Qed.

(** X3: [calculate] stores a result only when the distance display is
    rendered and a vehicle is selected; the result is the rounded quotient of
    the displayed distance by the [kmPerLiter] of a catalog vehicle that has
    the selected identifier, and no error is set with it. *)
Theorem X3_result_only_when_valid (s : State) (r : number) :
  result (calculate s) = Some r ->
  exists d v,
    distanceDisplay s = Some d /\ selectedVehicle s <> ""
    /\ In v vehicleTypes /\ id v = selectedVehicle s
    /\ r = div (round (mul (div d (kmPerLiter v)) (of_Z 100))) (of_Z 100)
    /\ error (calculate s) = "".
Proof.
  intros Hr.
  assert (H := calculate_first_failure vehicleTypes translations s).
  destruct (Spec.first_failure _ _ _ _) as [k|] eqn:Hff.
  { rewrite H in Hr. discriminate Hr. }
  destruct H as (v & Hf & H). rewrite H in Hr |- *. injection Hr as <-.
  unfold Spec.first_failure, Spec.order, find, Spec.fails in Hff.
  destruct (falsy (kmA s) || falsy (kmB s) || falsy (selectedVehicle s)) eqn:H1;
    [discriminate|].
  destruct (isNaN (parseFloat (kmA s)) || isNaN (parseFloat (kmB s))) eqn:H2;
    [discriminate|].
  destruct (le (parseFloat (kmB s)) (parseFloat (kmA s))) eqn:H3; [discriminate|].
  clear Hff.
  apply orb_false_elim in H1. destruct H1 as [H1 Hv].
  apply orb_false_elim in H1. destruct H1 as [Ha Hb].
  apply orb_false_elim in H2. destruct H2 as [Na Nb].
  rewrite (le_negb_gt _ _ Nb Na) in H3. apply negb_false_iff in H3.
  destruct (findVehicle_some _ _ _ Hf) as [Hin Hid].
  exists (sub (parseFloat (kmB s)) (parseFloat (kmA s))), v.
  split.
  { unfold distanceDisplay. rewrite Ha, Hb, Na, Nb, H3. reflexivity. }
  split; [apply falsy_false, Hv|].
  repeat split; assumption.
Qed.

(** X5: in a catalog whose every [kmPerLiter] is finite and positive, a
    stored result is never NaN and never negative. *)
Theorem X5_result_not_negative (s : State) (r : number) :
  Forall (fun v => positive_finite (kmPerLiter v) = true) vehicleTypes ->
  result (calculate s) = Some r -> nonneg_value r = true.
Proof.
  intros Hcat Hr.
  assert (H := calculate_first_failure vehicleTypes translations s).
  destruct (Spec.first_failure _ _ _ _) as [k|] eqn:Hff.
  { rewrite H in Hr. discriminate Hr. }
  destruct H as (v & Hf & H). rewrite H in Hr. injection Hr as <-.
  unfold Spec.first_failure, Spec.order, find, Spec.fails in Hff.
  destruct (falsy (kmA s) || falsy (kmB s) || falsy (selectedVehicle s)); [discriminate|].
  destruct (isNaN (parseFloat (kmA s)) || isNaN (parseFloat (kmB s))) eqn:H2;
    [discriminate|].
  destruct (le (parseFloat (kmB s)) (parseFloat (kmA s))) eqn:H3; [discriminate|].
  apply orb_false_elim in H2. destruct H2 as [Na Nb].
  rewrite (le_negb_gt _ _ Nb Na) in H3. apply negb_false_iff in H3.
  apply gt_lessThan in H3.
  destruct (findVehicle_some _ _ _ Hf) as [Hin _].
  rewrite Forall_forall in Hcat. specialize (Hcat v Hin).
  apply div_nonneg_value; [|reflexivity].
  apply round_nonneg_value, mul_nonneg_value; [|reflexivity].
  apply div_nonneg_value; [|exact Hcat].
  apply lessThan_sub_nonneg_value, H3.
Qed.

(** X6: a rendered distance is never NaN and never negative. *)
Theorem X6_distance_not_negative (s : State) (d : number) :
  distanceDisplay s = Some d -> nonneg_value d = true.
Proof.
  intros Hd. apply distanceDisplay_some in Hd.
  destruct Hd as (_ & _ & _ & _ & Hgt & ->).
  apply lessThan_sub_nonneg_value, gt_lessThan, Hgt.
Qed.

(** X12: after [reset] the render shows no distance, no error and no
    result, and a [calculate] straight after it sets the missing-field
    message of the language in force. *)
Theorem X12_reset_then (s : State) :
  distanceDisplay (resetForm s) = None
  /\ errorShown (resetForm s) = false
  /\ resultShown (resetForm s) = false
  /\ calculate (resetForm s)
     = setError (fillAllFields (errors (translations (language s)))) (resetForm s).
Proof. repeat split. Qed.

(** X13: [reset] forgets the action before it, except a language toggle,
    with which it commutes. *)
Theorem X13_reset_absorbs (a : Action) (s : State) :
  resetForm (step vehicleTypes translations a s)
  = match a with
    | ToggleLanguage => toggleLanguage (resetForm s)
    | _ => resetForm s
    end.
Proof.
  destruct a; try reflexivity.
  cbn [step]. destruct (calculate_inputs s) as (_ & _ & _ & Hl).
  unfold resetForm, setError, setResult, setSelectedVehicle, setKmB, setKmA.
  cbn [kmA kmB selectedVehicle result error language].
  rewrite Hl. reflexivity.
Qed.

(** X14: the language decides the wording only: after a language toggle
    [calculate] stores the same result, or fails at the same check with that
    check's message in the other language. *)
Theorem X14_calculate_after_toggle (s : State) :
  result (calculate (toggleLanguage s)) = result (calculate s)
  /\ exists o,
       error (calculate s) = Runs.outcome (translations (language s)) o
       /\ error (calculate (toggleLanguage s))
          = Runs.outcome (translations (Runs.other (language s))) o.
Proof.
  assert (H := calculate_first_failure vehicleTypes translations s).
  assert (H' := calculate_first_failure vehicleTypes translations (toggleLanguage s)).
  change (kmA (toggleLanguage s)) with (kmA s) in H'.
  change (kmB (toggleLanguage s)) with (kmB s) in H'.
  change (selectedVehicle (toggleLanguage s)) with (selectedVehicle s) in H'.
  change (language (toggleLanguage s)) with (Runs.other (language s)) in H'.
  destruct (Spec.first_failure _ _ _ _) as [k|].
  - rewrite H, H'. split; [reflexivity|]. exists (Some k). split; reflexivity.
  - destruct H as (v & Hf & H), H' as (v' & Hf' & H').
    rewrite Hf in Hf'. injection Hf' as <-.
    rewrite H, H'. split; [reflexivity|]. exists None. split; reflexivity.
Qed.

Lemma run_app acts1 acts2 s :
  run vehicleTypes translations (acts1 ++ acts2) s
  = run vehicleTypes translations acts2 (run vehicleTypes translations acts1 s).
Proof. unfold run. apply fold_left_app. Qed.

Lemma step_language a s :
  language (step vehicleTypes translations a s)
  = match a with
    | ToggleLanguage => Runs.other (language s)
    | _ => language s
    end.
Proof.
  destruct a; try reflexivity.
  apply (calculate_inputs s).
Qed.

(** X15: along any run of actions the language changes with the toggles
    only: it is the starting language after an even number of them and the
    other language after an odd number. *)
Theorem X15_language_parity (acts : list Action) (s : State) :
  language (run vehicleTypes translations acts s)
  = if Nat.even (Runs.toggles acts) then language s else Runs.other (language s).
Proof.
  revert s. induction acts as [|a acts IH]; intros s; [reflexivity|].
  change (run vehicleTypes translations (a :: acts) s)
    with (run vehicleTypes translations acts (step vehicleTypes translations a s)).
  rewrite IH, step_language.
  destruct a; try reflexivity.
  cbn [Runs.toggles]. rewrite Nat.even_succ, <- Nat.negb_even.
  destruct (Nat.even (Runs.toggles acts)), (language s); reflexivity.
Qed.

(** X16: when the catalog of the language in force has no empty error
    message, exactly one of the error block and the result block is
    rendered after [calculate]. *)
Theorem X16_calculate_gives_feedback (s : State) :
  (forall k, Spec.message (translations (language s)) k <> "") ->
  xorb (errorShown (calculate s)) (resultShown (calculate s)) = true.
Proof.
  intros Hmsg.
  assert (H := calculate_first_failure vehicleTypes translations s).
  destruct (Spec.first_failure _ _ _ _) as [k|].
  - rewrite H. unfold errorShown, resultShown. cbn [error result Spec.failed setError setResult].
    specialize (Hmsg k). apply falsy_false in Hmsg. rewrite Hmsg. reflexivity.
  - destruct H as (v & _ & H). rewrite H. reflexivity.
Qed.

(** X7: when the start text and the end text are the same text,
    [calculate] stores no result, whatever the text and the vehicle. *)
Theorem X7_same_text_no_result (s : State) :
  kmA s = kmB s ->
  result (calculateFuelConsumption vehicleTypes translations s) = None.
Proof.
  intros E.
  assert (H := calculate_first_failure vehicleTypes translations s).
  destruct (Spec.first_failure _ _ _ _) as [k|] eqn:Hff.
  { rewrite H. reflexivity. }
  exfalso.
  unfold Spec.first_failure, Spec.order, find, Spec.fails in Hff.
  rewrite E in Hff.
  destruct (falsy (kmB s) || falsy (kmB s) || falsy (selectedVehicle s)); [discriminate|].
  destruct (isNaN (parseFloat (kmB s))) eqn:N; [discriminate|].
  cbn [orb] in Hff.
  unfold le in Hff. rewrite (lessThan_irrefl _ N) in Hff. discriminate.
Qed.

(** X8: when [calculate] stores a result, then with the two distance texts
    exchanged it fails with the invalid-range message. *)
Theorem X8_reverse_trip_rejected (s : State) :
  result (calculate s) <> None ->
  calculate (Runs.swapped s)
  = Spec.failed (kmBGreater (errors (translations (language s)))) (Runs.swapped s).
Proof.
  intros Hr.
  assert (H := calculate_first_failure vehicleTypes translations s).
  destruct (Spec.first_failure _ _ _ _) as [k|] eqn:Hff.
  { rewrite H in Hr. exfalso. apply Hr. reflexivity. }
  clear H Hr.
  unfold Spec.first_failure, Spec.order, find, Spec.fails in Hff.
  destruct (falsy (kmA s) || falsy (kmB s) || falsy (selectedVehicle s)) eqn:H1;
    [discriminate|].
  destruct (isNaN (parseFloat (kmA s)) || isNaN (parseFloat (kmB s))) eqn:H2;
    [discriminate|].
  destruct (le (parseFloat (kmB s)) (parseFloat (kmA s))) eqn:H3; [discriminate|].
  clear Hff.
  apply orb_false_elim in H1. destruct H1 as [H1 Hv].
  apply orb_false_elim in H1. destruct H1 as [Ha Hb].
  apply orb_false_elim in H2. destruct H2 as [Na Nb].
  rewrite (le_negb_gt _ _ Nb Na) in H3. apply negb_false_iff in H3.
  apply gt_lessThan, lessThan_asym in H3.
  apply (calculate_invalid_range vehicleTypes translations (Runs.swapped s)).
  - cbn. rewrite Ha, Hb, Hv. reflexivity.
  - cbn. rewrite Na, Nb. reflexivity.
  - cbn. unfold le. rewrite H3. reflexivity.
Qed.

(** X19: when the distance display is rendered and the selected value is
    not an option of the vehicle selector, [calculate] sets the
    unknown-vehicle message and stores no result. *)
Theorem X19_unknown_vehicle (s : State) (d : number) :
  distanceDisplay s = Some d ->
  ~ In (selectedVehicle s) (vehicleOptions vehicleTypes) ->
  calculate s
  = Spec.failed (validVehicle (errors (translations (language s)))) s.
Proof.
  intros Hd Hin.
  apply distanceDisplay_some in Hd. destruct Hd as (Ha & Hb & Na & Nb & Hgt & _).
  assert (Hsel : selectedVehicle s <> "").
  { intros E. apply Hin. left. symmetry. exact E. }
  apply calculate_unknown_vehicle.
  - apply falsy_false in Hsel. rewrite Ha, Hb, Hsel. reflexivity.
  - rewrite Na, Nb. reflexivity.
  - apply gt_not_le, Hgt.
  - apply findVehicle_none. intros H. apply Hin. right. exact H.
Qed.

End MoreAppFacts.

(** ** Runs of the two versions *)
Section EnglishFacts.
Import Number Str.

Variable vehicleTypes : list VehicleType.

(** X17: in the English-only version exactly one of the error block and
    the result block is rendered after [calculate]. *)
Theorem X17_english_feedback (s : EnglishApp.State) :
  xorb (EnglishApp.errorShown (EnglishApp.calculateFuelConsumption vehicleTypes s))
       (EnglishApp.resultShown (EnglishApp.calculateFuelConsumption vehicleTypes s))
  = true.
Proof.
  assert (H := english_calculate_first_failure vehicleTypes s).
  destruct (Spec.first_failure _ _ _ _) as [k|].
  - rewrite H. destruct k; reflexivity.
  - destruct H as (v & _ & H). rewrite H. reflexivity.
Qed.

Variable translations : App.Language -> App.Translation.

Lemma agree_step a s1 s2 :
  Runs.agree translations s1 s2 ->
  Runs.agree translations (EnglishApp.step vehicleTypes a s1)
    (App.step vehicleTypes translations (Runs.lift a) s2).
Proof.
  intros (Ha & Hb & Hv & Hr & o & He1 & He2).
  destruct a; cbn [EnglishApp.step App.step Runs.lift].
  - repeat split; try assumption. exists o. split; assumption.
  - repeat split; try assumption. exists o. split; assumption.
  - repeat split; try assumption. exists o. split; assumption.
  - assert (H1 := english_calculate_first_failure vehicleTypes s1).
    assert (H2 := calculate_first_failure vehicleTypes translations s2).
    rewrite Ha, Hb, Hv in H1.
    destruct (Spec.first_failure _ _ _ _) as [k|].
    + rewrite H1, H2. repeat split; try assumption.
      exists (Some k). split; reflexivity.
    + destruct H1 as (v1 & Hv1 & H1), H2 as (v2 & Hv2 & H2).
      rewrite Hv1 in Hv2. injection Hv2 as <-.
      rewrite H1, H2. repeat split; try assumption.
      exists None. split; reflexivity.
  - repeat split. exists None. split; reflexivity.
Qed.

Lemma agree_initial : Runs.agree translations EnglishApp.initial App.initial.
Proof. repeat split. exists None. split; reflexivity. Qed.

Lemma agree_run acts s1 s2 :
  Runs.agree translations s1 s2 ->
  Runs.agree translations (EnglishApp.run vehicleTypes acts s1)
    (App.run vehicleTypes translations (map Runs.lift acts) s2).
Proof.
  revert s1 s2. induction acts as [|a acts IH]; intros s1 s2 H; [exact H|].
  apply IH, agree_step, H.
Qed.

Lemma lifted_run_language acts s2 :
  App.language (App.run vehicleTypes translations (map Runs.lift acts) s2)
  = App.language s2.
Proof.
  revert s2. induction acts as [|a acts IH]; intros s2; [reflexivity|].
  change (App.run vehicleTypes translations (map Runs.lift (a :: acts)) s2)
    with (App.run vehicleTypes translations (map Runs.lift acts)
            (App.step vehicleTypes translations (Runs.lift a) s2)).
  rewrite IH, step_language. destruct a; reflexivity.
Qed.

(** X18: run from their initial states through the same edits,
    calculations and resets, the English-only and the bilingual version hold
    the same inputs and result and errors of the same outcome; the bilingual
    one is still in its initial language; both render the same result and
    distance, and an error in the bilingual one only if the English one
    renders one. *)
Theorem X18_versions_agree_on_runs (acts : list EnglishApp.Action) :
  let s1 := EnglishApp.run vehicleTypes acts EnglishApp.initial in
  let s2 := App.run vehicleTypes translations (map Runs.lift acts) App.initial in
  Runs.agree translations s1 s2
  /\ App.language s2 = App.ID
  /\ EnglishApp.resultShown s1 = App.resultShown s2
  /\ EnglishApp.distanceDisplay s1 = App.distanceDisplay s2
  /\ implb (App.errorShown s2) (EnglishApp.errorShown s1) = true.
Proof.
  intros s1 s2.
  assert (H : Runs.agree translations s1 s2) by apply agree_run, agree_initial.
  split; [exact H|].
  split.
  { subst s2. rewrite lifted_run_language. reflexivity. }
  destruct H as (Ha & Hb & Hv & Hr & o & He1 & He2).
  split; [unfold EnglishApp.resultShown, App.resultShown; rewrite Hr; reflexivity|].
  split; [unfold EnglishApp.distanceDisplay, App.distanceDisplay; rewrite Ha, Hb; reflexivity|].
  unfold EnglishApp.errorShown, App.errorShown. rewrite He1, He2.
  destruct o as [k|]; [|reflexivity].
  destruct k; cbn [Runs.english_outcome Spec.english_message falsy negb];
    apply implb_true_r.
Qed.

End EnglishFacts.

(** ** More on [parseFloat] *)
Section ParseFacts.
Import Number Str.

Lemma digit_is_digit c :
  is_digit c = true -> digit c = Some (Z.of_N (byte c) - 48).
Proof. unfold is_digit, digit. intros ->. reflexivity. Qed.

(** A digit is neither white space nor a sign nor the start of [Infinity]. *)
Lemma digit_head c r :
  is_digit c = true ->
  trimStart (String c r) = String c r
  /\ sign (String c r) = (false, String c r)
  /\ prefix "Infinity" (String c r) = false.
Proof.
  intros H.
  destruct c as [[] [] [] [] [] [] [] []]; try discriminate H;
    (split; [destruct r as [|b [|x r3]]; reflexivity | split; reflexivity]).
Qed.

Lemma span_digits_all s :
  all_chars is_digit s = true ->
  exists ds, span_digits s = (ds, "")
    /\ (forall acc, fold_left (fun a d => 10 * a + d) ds acc = decimal_from acc s)
    /\ (s <> "" -> ds <> []).
Proof.
  induction s as [|c r IH]; cbn [all_chars]; intros H.
  - exists []. repeat split. congruence.
  - apply andb_prop in H. destruct H as [Hc Hr].
    destruct (IH Hr) as (ds & Hs & Hv & _).
    exists ((Z.of_N (byte c) - 48) :: ds).
    cbn [span_digits]. rewrite (digit_is_digit _ Hc), Hs.
    repeat split; [|discriminate].
    intros acc. cbn [fold_left decimal_from]. apply Hv.
Qed.

Lemma decimal_from_nonneg s acc :
  all_chars is_digit s = true -> 0 <= acc -> 0 <= decimal_from acc s.
Proof.
  revert acc. induction s as [|c r IH]; cbn [all_chars decimal_from]; intros acc H Hacc.
  - exact Hacc.
  - apply andb_prop in H. destruct H as [Hc Hr]. apply IH; [exact Hr|].
    unfold is_digit in Hc. apply andb_prop in Hc. destruct Hc as [Hc _].
    apply N.leb_le in Hc. lia.
Qed.

(** X10: [parseFloat] of a non-empty string of decimal digits is the Number
    nearest to the integer the digits write. *)
Theorem X10_parseFloat_digits (s : string) :
  s <> "" -> all_chars is_digit s = true ->
  parseFloat s = of_Z (decimal_from 0 s).
Proof.
  intros Hne Hall.
  destruct (span_digits_all s Hall) as (ds & Hs & Hv & Hds).
  specialize (Hds Hne).
  assert (Hpos := decimal_from_nonneg s 0 Hall (Z.le_refl 0)).
  destruct s as [|c r]; [congruence|].
  cbn [all_chars] in Hall. apply andb_prop in Hall. destruct Hall as [Hc _].
  destruct (digit_head c r Hc) as (Ht & Hsg & Hp).
  unfold parseFloat. rewrite Ht, Hsg.
  unfold unsigned_literal. rewrite Hp, Hs.
  destruct ds as [|d ds]; [congruence|].
  cbn [is_nil andb]. rewrite app_nil_r.
  unfold digits_value. rewrite Hv.
  cbn [exponent List.length Z.of_nat Z.sub Z.opp Z.add].
  unfold of_decimal.
  destruct (decimal_from 0 (String c r)) as [|p|p]; [reflexivity| |lia].
  cbn [Z.leb Z.compare]. unfold of_Z. cbn [cond_Zopp].
  rewrite Z.pow_0_r, Z.mul_1_r. reflexivity.
Qed.

Lemma trimStart_white s : all_chars is_ws1 s = true -> trimStart s = "".
Proof.
  induction s as [|a r IH]; cbn [all_chars]; intros H; [reflexivity|].
  apply andb_prop in H. destruct H as [Ha Hr].
  cbn [trimStart]. rewrite Ha. apply IH, Hr.
Qed.

Lemma parseFloat_white s : all_chars is_ws1 s = true -> parseFloat s = NaN.
Proof.
  intros H. unfold parseFloat. rewrite (trimStart_white s H). reflexivity.
Qed.

Variable vehicleTypes : list VehicleType.
Variable translations : App.Language -> App.Translation.

(** X9: a distance text made of white space only counts as filled but
    does not parse: with the three fields non-empty, [calculate] sets the
    invalid-number message, not the missing-field one. *)
Theorem X9_blank_text_is_invalid_number (s : App.State) :
  App.kmA s <> "" -> App.kmB s <> "" -> App.selectedVehicle s <> "" ->
  all_chars is_ws1 (App.kmA s) = true \/ all_chars is_ws1 (App.kmB s) = true ->
  App.calculateFuelConsumption vehicleTypes translations s
  = Spec.failed (App.validNumbers (App.errors (translations (App.language s)))) s.
Proof.
  intros Ha Hb Hv H.
  apply calculate_invalid_number.
  - apply all_filled; assumption.
  - destruct H as [H|H]; rewrite (parseFloat_white _ H); cbn [isNaN NaN];
      rewrite ?orb_true_r; reflexivity.
Qed.

End ParseFacts.

(** ** Evaluation of the further properties *)
Section MoreEvaluation.
Import Number Str.

Lemma X3_witness :
  App.result (App.calculateFuelConsumption Sample.vehicleTypes Sample.translations
                (Sample.form "10" "110" "car" App.ID))
  = Some (of_Z 5)
  /\ exists d v,
       App.distanceDisplay (Sample.form "10" "110" "car" App.ID) = Some d
       /\ App.selectedVehicle (Sample.form "10" "110" "car" App.ID) <> ""
       /\ In v Sample.vehicleTypes
       /\ id v = App.selectedVehicle (Sample.form "10" "110" "car" App.ID)
       /\ of_Z 5 = div (round (mul (div d (kmPerLiter v)) (of_Z 100))) (of_Z 100)
       /\ App.error (App.calculateFuelConsumption Sample.vehicleTypes
                       Sample.translations (Sample.form "10" "110" "car" App.ID))
          = "".
Proof.
  assert (H : App.result
                (App.calculateFuelConsumption Sample.vehicleTypes Sample.translations
                   (Sample.form "10" "110" "car" App.ID))
              = Some (of_Z 5)) by (vm_compute; reflexivity).
  split; [exact H|].
  exact (X3_result_only_when_valid Sample.vehicleTypes Sample.translations _ _ H).
Defined.

Lemma X4_witness :
  (App.distanceDisplay (Sample.form "10" "110" "car" App.ID) = Some (of_Z 100)
   /\ App.selectedVehicle (Sample.form "10" "110" "car" App.ID) <> ""
   /\ In (App.selectedVehicle (Sample.form "10" "110" "car" App.ID))
         (App.vehicleOptions Sample.vehicleTypes))
  /\ exists v, In v Sample.vehicleTypes
       /\ id v = App.selectedVehicle (Sample.form "10" "110" "car" App.ID)
       /\ App.result (App.calculateFuelConsumption Sample.vehicleTypes
                        Sample.translations (Sample.form "10" "110" "car" App.ID))
          = Some (div (round (mul (div (of_Z 100) (kmPerLiter v)) (of_Z 100))) (of_Z 100))
       /\ App.error (App.calculateFuelConsumption Sample.vehicleTypes
                       Sample.translations (Sample.form "10" "110" "car" App.ID))
          = "".
Proof.
  assert (Hd : App.distanceDisplay (Sample.form "10" "110" "car" App.ID)
               = Some (of_Z 100)) by (vm_compute; reflexivity).
  assert (Hs : App.selectedVehicle (Sample.form "10" "110" "car" App.ID) <> "")
    by discriminate.
  assert (Hin : In (App.selectedVehicle (Sample.form "10" "110" "car" App.ID))
                   (App.vehicleOptions Sample.vehicleTypes))
    by (right; left; reflexivity).
  split; [repeat split; assumption|].
  exact (X4_calculate_succeeds Sample.vehicleTypes Sample.translations _ _ Hd Hs Hin).
Defined.

Lemma X5_witness :
  (Forall (fun v => positive_finite (kmPerLiter v) = true) Sample.vehicleTypes
   /\ App.result (App.calculateFuelConsumption Sample.vehicleTypes Sample.translations
                    (Sample.form "10" "110" "car" App.ID))
      = Some (of_Z 5))
  /\ nonneg_value (of_Z 5) = true.
Proof.
  assert (Hc : Forall (fun v => positive_finite (kmPerLiter v) = true)
                 Sample.vehicleTypes)
    by (repeat constructor).
  assert (H : App.result
                (App.calculateFuelConsumption Sample.vehicleTypes Sample.translations
                   (Sample.form "10" "110" "car" App.ID))
              = Some (of_Z 5)) by (vm_compute; reflexivity).
  split; [split; assumption|].
  exact (X5_result_not_negative Sample.vehicleTypes Sample.translations _ _ Hc H).
Defined.

Lemma X6_witness :
  App.distanceDisplay (Sample.form "10" "110" "" App.ID) = Some (of_Z 100)
  /\ nonneg_value (of_Z 100) = true.
Proof.
  assert (Hd : App.distanceDisplay (Sample.form "10" "110" "" App.ID)
               = Some (of_Z 100)) by (vm_compute; reflexivity).
  split; [exact Hd|].
  exact (X6_distance_not_negative _ _ Hd).
Defined.

Lemma X7_witness :
  App.kmA (Sample.form "50" "50" "car" App.EN)
  = App.kmB (Sample.form "50" "50" "car" App.EN)
  /\ App.result (App.calculateFuelConsumption Sample.vehicleTypes Sample.translations
                   (Sample.form "50" "50" "car" App.EN))
     = None.
Proof.
  split; [reflexivity|].
  exact (X7_same_text_no_result Sample.vehicleTypes Sample.translations
           (Sample.form "50" "50" "car" App.EN) eq_refl).
Defined.

Lemma X8_witness :
  App.result (App.calculateFuelConsumption Sample.vehicleTypes Sample.translations
                (Sample.form "10" "110" "car" App.EN))
  <> None
  /\ App.error (App.calculateFuelConsumption Sample.vehicleTypes Sample.translations
                  (Runs.swapped (Sample.form "10" "110" "car" App.EN)))
     = "KM B must be greater than KM A".
Proof.
  assert (H : App.result
                (App.calculateFuelConsumption Sample.vehicleTypes Sample.translations
                   (Sample.form "10" "110" "car" App.EN))
              <> None)
    by (vm_compute; discriminate).
  split; [exact H|].
  rewrite (X8_reverse_trip_rejected Sample.vehicleTypes Sample.translations _ H).
  reflexivity.
Defined.

Lemma X9_witness :
  (App.kmA (Sample.form "  " "100" "car" App.EN) <> ""
   /\ App.kmB (Sample.form "  " "100" "car" App.EN) <> ""
   /\ App.selectedVehicle (Sample.form "  " "100" "car" App.EN) <> ""
   /\ all_chars is_ws1 (App.kmA (Sample.form "  " "100" "car" App.EN)) = true)
  /\ App.error (App.calculateFuelConsumption Sample.vehicleTypes Sample.translations
                  (Sample.form "  " "100" "car" App.EN))
     = "Please enter valid numbers for kilometers".
Proof.
  split; [repeat split; discriminate|].
  rewrite (X9_blank_text_is_invalid_number Sample.vehicleTypes Sample.translations
             (Sample.form "  " "100" "car" App.EN));
    try discriminate; [reflexivity | left; reflexivity].
Defined.

Lemma X10_witness :
  ("110" <> "" /\ all_chars is_digit "110" = true)
  /\ parseFloat "110" = of_Z 110.
Proof.
  split; [split; [discriminate | reflexivity]|].
  apply (X10_parseFloat_digits "110"); [discriminate | reflexivity].
Defined.

Lemma X11_witness :
  (NoDup (map id Sample.vehicleTypes) /\ In Sample.car Sample.vehicleTypes)
  /\ findVehicle Sample.vehicleTypes (id Sample.car) = Some Sample.car.
Proof.
  assert (Hn : NoDup (map id Sample.vehicleTypes)).
  { constructor; [intros [] | constructor]. }
  assert (Hi : In Sample.car Sample.vehicleTypes) by (left; reflexivity).
  split; [split; assumption|].
  exact (X11_findVehicle_unique Sample.vehicleTypes Sample.car Hn Hi).
Defined.

Lemma X16_witness :
  (forall k, Spec.message (Sample.translations
                             (App.language (Sample.form "" "" "" App.EN))) k <> "")
  /\ xorb (App.errorShown (App.calculateFuelConsumption Sample.vehicleTypes
                             Sample.translations (Sample.form "" "" "" App.EN)))
          (App.resultShown (App.calculateFuelConsumption Sample.vehicleTypes
                              Sample.translations (Sample.form "" "" "" App.EN)))
     = true.
Proof.
  assert (H : forall k, Spec.message (Sample.translations
                (App.language (Sample.form "" "" "" App.EN))) k <> "")
    by (intros k; destruct k; discriminate).
  split; [exact H|].
  exact (X16_calculate_gives_feedback Sample.vehicleTypes Sample.translations _ H).
Defined.

Lemma X19_witness :
  (App.distanceDisplay (Sample.form "10" "110" "bike" App.EN) = Some (of_Z 100)
   /\ ~ In (App.selectedVehicle (Sample.form "10" "110" "bike" App.EN))
           (App.vehicleOptions Sample.vehicleTypes))
  /\ App.error (App.calculateFuelConsumption Sample.vehicleTypes Sample.translations
                  (Sample.form "10" "110" "bike" App.EN))
     = "Please select a valid vehicle type".
Proof.
  assert (Hd : App.distanceDisplay (Sample.form "10" "110" "bike" App.EN)
               = Some (of_Z 100)) by (vm_compute; reflexivity).
  assert (Hin : ~ In (App.selectedVehicle (Sample.form "10" "110" "bike" App.EN))
                     (App.vehicleOptions Sample.vehicleTypes)).
  { intros [H|[H|[]]]; discriminate H. }
  split; [split; assumption|].
  rewrite (X19_unknown_vehicle Sample.vehicleTypes Sample.translations _ _ Hd Hin).
  reflexivity.
Defined.

End MoreEvaluation.
